(** * wy_module: a single-holder character device exchanging one parameter record

    A shallow embedding of [wy_module.c] and the properties of its entry
    points: [wy_module_init], [wy_module_exit], [wy_module_open],
    [wy_module_release], [wy_module_write] and [wy_module_read]. *)

From Stdlib Require Import ZArith String Lia.
From Stdlib Require Import Init.Byte Strings.Byte.
From stdpp Require Import base list.
From Equations Require Import Equations.

Local Open Scope string_scope.
Local Open Scope Z_scope.

(** ** What the kernel headers fix for a build target

    [wy_module.c] is compiled against the Linux headers; the constants and
    macros below are not part of the module's source, so every definition
    and theorem is parametric in them. *)

Inductive data_model : Type := ILP32 | LP64.
Inductive byte_order : Type := LittleEndian | BigEndian.

Class Platform : Type := {
  pointers   : data_model;          (* width of [uint32_t*] *)
  endianness : byte_order;          (* how [params.cmd] is read from its bytes *)
  EBUSY      : Z;                   (* <linux/errno.h> *)
  IS_ERR     : Z -> bool;           (* <linux/err.h> *)
  PTR_ERR    : Z -> Z;              (* <linux/err.h>, a [long] *)
  MKDEV      : Z -> Z -> Z          (* <linux/kdev_t.h> *)
}.

(** Conversion of a [long] to the [int] a function returns. *)
Definition cast_int (z : Z) : Z := (z + 2 ^ 31) mod 2 ^ 32 - 2 ^ 31.

(** ** The layout of [params_t]

    [typedef struct { uint32_t cmd; uint32_t* vaddr; uint32_t len; } params_t;]
    laid out by the usual C rules: each member at the next multiple of its
    alignment, the whole rounded up to the largest alignment. *)

Definition align_up (n a : Z) : Z := (n + a - 1) / a * a.

Section Layout.
Context `{Platform}.

Definition sizeof_ptr : Z :=
  match pointers with ILP32 => 4 | LP64 => 8 end.

Definition offsetof_cmd : Z := 0.
Definition offsetof_vaddr : Z := align_up (offsetof_cmd + 4) sizeof_ptr.
Definition offsetof_len : Z := align_up (offsetof_vaddr + sizeof_ptr) 4.
Definition sizeof_params_t : Z :=
  align_up (offsetof_len + 4) (Z.max 4 sizeof_ptr).

(** Reading an unsigned integer from its object representation. *)
Definition byte_val (b : byte) : Z := Z.of_N (Byte.to_N b).

Fixpoint load_le (bs : list byte) : Z :=
  match bs with
  | [] => 0
  | b :: bs' => byte_val b + 256 * load_le bs'
  end.

Definition load_uint (bs : list byte) : Z :=
  match endianness with
  | LittleEndian => load_le bs
  | BigEndian => load_le (rev bs)
  end.

Definition member (off size : Z) (obj : list byte) : list byte :=
  take (Z.to_nat size) (drop (Z.to_nat off) obj).

(** The typed view of the record: what [params.cmd], [params.vaddr] and
    [params.len] evaluate to for a given object representation. *)
Record params_t : Type := { cmd : Z; vaddr : Z; len : Z }.

Definition decode (obj : list byte) : params_t :=
  {| cmd   := load_uint (member offsetof_cmd 4 obj);
     vaddr := load_uint (member offsetof_vaddr sizeof_ptr obj);
     len   := load_uint (member offsetof_len 4 obj) |}.
End Layout.

(** ** Calls into the kernel

    Every call the module makes is recorded, with its arguments and, where
    it has one, its result. Pointers and [int]s are numbers; format strings
    are kept as they are spelled in the source. The arguments that are the
    same at every call ([THIS_MODULE], [&fops], the [NULL] parent and driver
    data of [device_create]) are left out. *)

Inductive loglevel : Type := KERN_ALERT | KERN_INFO.

Inductive kcall : Type :=
| Kregister_chrdev (major : Z) (name : string) (result : Z)
| Kunregister_chrdev (major : Z) (name : string)
| Kclass_create (name : string) (result : Z)
| Kclass_unregister (cls : Z)
| Kclass_destroy (cls : Z)
| Kdevice_create (cls : Z) (devt : Z) (name : string) (result : Z)
| Kdevice_destroy (cls : Z) (devt : Z)
| Ktry_module_get
| Kmodule_put
| Kprintk (level : loglevel) (fmt : string) (args : list Z).

(** What the kernel answers to the three calls whose result the module
    inspects. *)
Record answers : Type := {
  ans_register_chrdev : Z;
  ans_class_create    : Z;
  ans_device_create   : Z
}.

(** ** The machine state *)

(** The module's static variables. [params] is held as its object
    representation, since the transfer functions access it through a
    [char*]. *)
Record globals : Type := {
  wy_module_open_count : Z;
  wy_module_major_num  : Z;
  params               : list byte;
  wy_module_class      : Z;
  wy_module_device     : Z
}.

Record machine : Type := {
  statics : globals;
  user    : Z -> byte;        (* user-space memory, by address *)
  kernel  : answers;
  klog    : list kcall        (* calls made so far, oldest first *)
}.

(** ** A state monad over the machine *)

Definition M (A : Type) : Type := machine -> A * machine.

Definition ret {A} (a : A) : M A := fun m => (a, m).
Definition bind {A B} (c : M A) (k : A -> M B) : M B :=
  fun m => let (a, m') := c m in k a m'.

Declare Scope wy_scope.
Delimit Scope wy_scope with wy.
Notation "'let*' x ':=' c 'in' k" := (bind c (fun x => k))
  (at level 10, x name, c at level 100, k at level 200) : wy_scope.
Notation "c ';;;' k" := (bind c (fun _ => k))
  (at level 100, k at level 200, right associativity) : wy_scope.
Local Open Scope wy_scope.

Definition read_statics {A} (f : globals -> A) : M A :=
  fun m => (f (statics m), m).
Definition write_statics (f : globals -> globals) : M unit :=
  fun m => (tt, {| statics := f (statics m); user := user m;
                   kernel := kernel m; klog := klog m |}).
Definition kcalled (c : kcall) : M unit :=
  fun m => (tt, {| statics := statics m; user := user m;
                   kernel := kernel m; klog := klog m ++ [c] |}).
Definition answer (f : answers -> Z) : M Z :=
  fun m => (f (kernel m), m).

Definition set_open_count (v : Z) (g : globals) : globals :=
  {| wy_module_open_count := v;
     wy_module_major_num := wy_module_major_num g;
     params := params g;
     wy_module_class := wy_module_class g;
     wy_module_device := wy_module_device g |}.
Definition set_major_num (v : Z) (g : globals) : globals :=
  {| wy_module_open_count := wy_module_open_count g;
     wy_module_major_num := v;
     params := params g;
     wy_module_class := wy_module_class g;
     wy_module_device := wy_module_device g |}.
Definition set_params (v : list byte) (g : globals) : globals :=
  {| wy_module_open_count := wy_module_open_count g;
     wy_module_major_num := wy_module_major_num g;
     params := v;
     wy_module_class := wy_module_class g;
     wy_module_device := wy_module_device g |}.
Definition set_class (v : Z) (g : globals) : globals :=
  {| wy_module_open_count := wy_module_open_count g;
     wy_module_major_num := wy_module_major_num g;
     params := params g;
     wy_module_class := v;
     wy_module_device := wy_module_device g |}.
Definition set_device (v : Z) (g : globals) : globals :=
  {| wy_module_open_count := wy_module_open_count g;
     wy_module_major_num := wy_module_major_num g;
     params := params g;
     wy_module_class := wy_module_class g;
     wy_module_device := v |}.

(** The kernel functions, as monadic operations. *)
Definition register_chrdev (major : Z) (name : string) : M Z :=
  let* r := answer ans_register_chrdev in
  kcalled (Kregister_chrdev major name r) ;;;
  ret r.
Definition unregister_chrdev (major : Z) (name : string) : M unit :=
  kcalled (Kunregister_chrdev major name).
Definition class_create (name : string) : M Z :=
  let* r := answer ans_class_create in
  kcalled (Kclass_create name r) ;;;
  ret r.
Definition class_unregister (cls : Z) : M unit :=
  kcalled (Kclass_unregister cls).
Definition class_destroy (cls : Z) : M unit :=
  kcalled (Kclass_destroy cls).
Definition device_create (cls devt : Z) (name : string) : M Z :=
  let* r := answer ans_device_create in
  kcalled (Kdevice_create cls devt name r) ;;;
  ret r.
Definition device_destroy (cls devt : Z) : M unit :=
  kcalled (Kdevice_destroy cls devt).
Definition try_module_get : M unit := kcalled Ktry_module_get.
Definition module_put : M unit := kcalled Kmodule_put.
Definition printk (level : loglevel) (fmt : string) (args : list Z) : M unit :=
  kcalled (Kprintk level fmt args).

(** Modelled from the spec: [get_user] and [put_user] of <linux/uaccess.h>,
    which are not part of the module's source. The spec's transfer transport
    "already validates accessibility of the caller's buffer and only supplies
    byte-for-byte copy semantics": one byte is copied from, or to, the given
    user-space address. *)
Definition get_user (addr : Z) : M byte :=
  fun m => (user m addr, m).
Definition put_user (c : byte) (addr : Z) : M unit :=
  fun m => (tt, {| statics := statics m;
                   user := fun a => if a =? addr then c else user m a;
                   kernel := kernel m; klog := klog m |}).

(** Access to the bytes of [params] through a [char*] that points [off]
    bytes past [(char* )&params]. The transfer loops run only when [len] is
    [sizeof(params_t)], with [off] going from 0 to [len - 1], so every
    access is inside the object; outside it the model stores nothing and
    loads a zero byte. *)
Definition store_params (off : Z) (c : byte) : M unit :=
  write_statics (fun g => set_params (<[Z.to_nat off := c]> (params g)) g).
Definition load_params (off : Z) : M byte :=
  read_statics (fun g => default x00 (params g !! Z.to_nat off)).

Definition CLASS_NAME : string := "chardrv".
Definition DEVICE_NAME : string := "wy_module".

Section Module.
Context `{Platform}.

(** *** [wy_module_init] and [wy_module_exit] *)

Definition wy_module_init : M Z :=
  let* major := register_chrdev 0 "wy_module" in
  write_statics (set_major_num major) ;;;
  if major <? 0 then
    printk KERN_ALERT "Could not register device: %d\n" [major] ;;;
    ret major
  else
    printk KERN_INFO
      "wy_module module loaded successfully. Major number = %d\n" [major] ;;;
    let* cls := class_create CLASS_NAME in
    write_statics (set_class cls) ;;;
    if IS_ERR cls then
      unregister_chrdev major DEVICE_NAME ;;;
      printk KERN_ALERT "Failed to register device class\n" [] ;;;
      ret (cast_int (PTR_ERR cls))
    else
      printk KERN_INFO "wy_module: device class registered correctly\n" [] ;;;
      let* dev := device_create cls (MKDEV major 0) DEVICE_NAME in
      write_statics (set_device dev) ;;;
      if IS_ERR dev then
        class_destroy cls ;;;
        unregister_chrdev major DEVICE_NAME ;;;
        printk KERN_ALERT "wy_module: Failed to create the device\n" [] ;;;
        ret (cast_int (PTR_ERR dev))
      else
        printk KERN_INFO "wy_module: device class created correctly\n" [] ;;;
        ret 0.

Definition wy_module_exit : M unit :=
  let* cls := read_statics wy_module_class in
  let* major := read_statics wy_module_major_num in
  device_destroy cls (MKDEV major 0) ;;;
  class_unregister cls ;;;
  class_destroy cls ;;;
  unregister_chrdev major DEVICE_NAME ;;;
  printk KERN_INFO "Exiting wy_module\n" [].

(** *** [wy_module_open] and [wy_module_release]

    [wy_module_open_count] is an [int]; its [++] and [--] are written with
    the wrap-around the kernel is built with. *)

Definition wy_module_open : M Z :=
  let* count := read_statics wy_module_open_count in
  if negb (count =? 0) then
    ret (- EBUSY)
  else
    write_statics (set_open_count (cast_int (count + 1))) ;;;
    try_module_get ;;;
    ret 0.

Definition wy_module_release : M Z :=
  let* count := read_statics wy_module_open_count in
  (if negb (count =? 0) then
     write_statics (set_open_count (cast_int (count - 1)))
   else
     ret tt) ;;;
  module_put ;;;
  ret 0.

(** *** [wy_module_write] *)

(** The local variables of a transfer: the byte counter ([bytes_written]
    or [bytes_read], an [int]), [paramPtr] as an offset from
    [(char* )&params], and the user-space pointer [buffer]. *)
Record locals : Type := { bytes : Z; paramPtr : Z; buffer : Z }.

(** [get_user( *paramPtr, buffer++); paramPtr++; bytes_written++;] *)
Definition write_body (l : locals) : M locals :=
  let* c := get_user (buffer l) in
  store_params (paramPtr l) c ;;;
  ret {| bytes := bytes l + 1;
         paramPtr := paramPtr l + 1;
         buffer := buffer l + 1 |}.

(** [while (bytes_written < len) { ... }]. The loop is only entered with
    the counter at 0 and [len] equal to [sizeof(params_t)], so the counter
    stays between 0 and that size: its increment never overflows an [int],
    and comparing it with the [size_t] [len] is the comparison of the two
    numbers. *)
Equations? write_loop (len : Z) (l : locals) (m : machine) : locals * machine
  by wf (Z.to_nat (len - bytes l)) lt :=
  write_loop len l m with Z_lt_dec (bytes l) len := {
    | left _ => write_loop len (fst (write_body l m)) (snd (write_body l m))
    | right _ => (l, m) }.
Proof. cbn. lia. Qed.

Definition wy_module_write (buf len : Z) : M Z :=
  let l := {| bytes := 0; paramPtr := 0; buffer := buf |} in
  if negb (len =? sizeof_params_t) then
    ret 0
  else
    let* l := write_loop len l in
    let* command := read_statics (fun g => cmd (decode (params g))) in
    match command with
    | _ => printk KERN_INFO "wy_module write default operation\n" []
    end ;;;
    ret (bytes l).

(** *** [wy_module_read] *)

(** [put_user( *paramPtr, buffer++); paramPtr++; bytes_read++;] *)
Definition read_body (l : locals) : M locals :=
  let* c := load_params (paramPtr l) in
  put_user c (buffer l) ;;;
  ret {| bytes := bytes l + 1;
         paramPtr := paramPtr l + 1;
         buffer := buffer l + 1 |}.

Equations? read_loop (len : Z) (l : locals) (m : machine) : locals * machine
  by wf (Z.to_nat (len - bytes l)) lt :=
  read_loop len l m with Z_lt_dec (bytes l) len := {
    | left _ => read_loop len (fst (read_body l m)) (snd (read_body l m))
    | right _ => (l, m) }.
Proof. cbn. lia. Qed.

Definition wy_module_read (buf len : Z) : M Z :=
  let l := {| bytes := 0; paramPtr := 0; buffer := buf |} in
  if negb (len =? sizeof_params_t) then
    ret 0
  else
    let* l := read_loop len l in
    ret (bytes l).

(** *** Sequences of entry points *)

Inductive entry : Type :=
| Eopen
| Erelease
| Ewrite (buf len : Z)
| Eread (buf len : Z)
| Einit
| Eexit.

Definition enter (e : entry) : M Z :=
  match e with
  | Eopen => wy_module_open
  | Erelease => wy_module_release
  | Ewrite buf len => wy_module_write buf len
  | Eread buf len => wy_module_read buf len
  | Einit => wy_module_init
  | Eexit => wy_module_exit ;;; ret 0
  end.

Fixpoint run (es : list entry) (m : machine) : machine :=
  match es with
  | [] => m
  | e :: es' => run es' (snd (enter e m))
  end.

(** The statics as the C runtime initialises them: [wy_module_open_count]
    to its initialiser, the others to zero bytes. *)
Definition initial_statics : globals :=
  {| wy_module_open_count := 0;
     wy_module_major_num := 0;
     params := replicate (Z.to_nat sizeof_params_t) x00;
     wy_module_class := 0;
     wy_module_device := 0 |}.

Definition initial (u : Z -> byte) (k : answers) : machine :=
  {| statics := initial_statics; user := u; kernel := k; klog := [] |}.

(** The [n] bytes of user memory that start at address [addr]. *)
Definition bytes_at (u : Z -> byte) (addr : Z) (n : nat) : list byte :=
  map (fun i => u (addr + Z.of_nat i)) (seq 0 n).
Definition user_bytes (m : machine) (addr : Z) (n : Z) : list byte :=
  bytes_at (user m) addr (Z.to_nat n).

(** *** Resources obtained from and returned to the kernel, read off the
    record of calls *)

Fixpoint tally (p : kcall -> bool) (log : list kcall) : Z :=
  match log with
  | [] => 0
  | c :: log' => (if p c then 1 else 0) + tally p log'
  end.

(** Successful acquisitions: a major number from [register_chrdev], a
    class from [class_create], a device from [device_create]. *)
Definition got_major (c : kcall) : bool :=
  match c with Kregister_chrdev _ _ r => 0 <=? r | _ => false end.
Definition got_class (c : kcall) : bool :=
  match c with Kclass_create _ r => negb (IS_ERR r) | _ => false end.
Definition got_device (c : kcall) : bool :=
  match c with Kdevice_create _ _ _ r => negb (IS_ERR r) | _ => false end.

(** Releases. [wy_module_init] documents [class_create] as "Register the
    device class" and gives the class back with [class_destroy] alone on its
    failure path; [wy_module_exit] documents [class_unregister] as
    "Unregister the device class". Both are calls that release the class
    they are passed. *)
Definition gave_major (c : kcall) : bool :=
  match c with Kunregister_chrdev _ _ => true | _ => false end.
Definition gave_class (c : kcall) : bool :=
  match c with
  | Kclass_unregister _ | Kclass_destroy _ => true
  | _ => false
  end.
Definition gave_device (c : kcall) : bool :=
  match c with Kdevice_destroy _ _ => true | _ => false end.

(** How many more of each resource were obtained than released. *)
Definition majors_held (log : list kcall) : Z :=
  tally got_major log - tally gave_major log.
Definition classes_held (log : list kcall) : Z :=
  tally got_class log - tally gave_class log.
Definition devices_held (log : list kcall) : Z :=
  tally got_device log - tally gave_device log.
End Module.

(** The machine with the bytes of [params] replaced. *)
Definition with_params (p : list byte) (m : machine) : machine :=
  {| statics := set_params p (statics m); user := user m;
     kernel := kernel m; klog := klog m |}.

(** The stored record occupies exactly [sizeof(params_t)] bytes. *)
Definition well_formed `{Platform} (m : machine) : Prop :=
  length (params (statics m)) = Z.to_nat sizeof_params_t.

(** The [printk] of the [default:] branch of [wy_module_write]. *)
Definition write_default_message : kcall :=
  Kprintk KERN_INFO "wy_module write default operation\n" [].

(** The calls made between two machine states. *)
Definition calls_since (m m' : machine) : list kcall :=
  drop (length (klog m)) (klog m').

(** The calls [wy_module_init] makes on each of its four paths, and the
    calls [wy_module_exit] makes, for the values the kernel returned. *)
Definition init_calls_register_failed (major : Z) : list kcall :=
  [Kregister_chrdev 0 "wy_module" major;
   Kprintk KERN_ALERT "Could not register device: %d\n" [major]].

Definition init_calls_class_failed (major cls : Z) : list kcall :=
  [Kregister_chrdev 0 "wy_module" major;
   Kprintk KERN_INFO
     "wy_module module loaded successfully. Major number = %d\n" [major];
   Kclass_create CLASS_NAME cls;
   Kunregister_chrdev major DEVICE_NAME;
   Kprintk KERN_ALERT "Failed to register device class\n" []].

Definition init_calls_device_failed `{Platform} (major cls dev : Z)
  : list kcall :=
  [Kregister_chrdev 0 "wy_module" major;
   Kprintk KERN_INFO
     "wy_module module loaded successfully. Major number = %d\n" [major];
   Kclass_create CLASS_NAME cls;
   Kprintk KERN_INFO "wy_module: device class registered correctly\n" [];
   Kdevice_create cls (MKDEV major 0) DEVICE_NAME dev;
   Kclass_destroy cls;
   Kunregister_chrdev major DEVICE_NAME;
   Kprintk KERN_ALERT "wy_module: Failed to create the device\n" []].

Definition init_calls_ok `{Platform} (major cls dev : Z) : list kcall :=
  [Kregister_chrdev 0 "wy_module" major;
   Kprintk KERN_INFO
     "wy_module module loaded successfully. Major number = %d\n" [major];
   Kclass_create CLASS_NAME cls;
   Kprintk KERN_INFO "wy_module: device class registered correctly\n" [];
   Kdevice_create cls (MKDEV major 0) DEVICE_NAME dev;
   Kprintk KERN_INFO "wy_module: device class created correctly\n" []].

Definition exit_calls `{Platform} (major cls : Z) : list kcall :=
  [Kdevice_destroy cls (MKDEV major 0);
   Kclass_unregister cls;
   Kclass_destroy cls;
   Kunregister_chrdev major DEVICE_NAME;
   Kprintk KERN_INFO "Exiting wy_module\n" []].

(** ** Records as values

    The object representation a compiler gives a [params_t] whose members
    have the given values, with zeroed padding; used to speak of the record
    a sequence of bytes stands for. *)
Section Objects.
Context `{Platform}.

Definition byte_of (z : Z) : byte := default x00 (Byte.of_N (Z.to_N z)).

Fixpoint store_le (n : nat) (v : Z) : list byte :=
  match n with
  | O => []
  | S k => byte_of (v mod 256) :: store_le k (v / 256)
  end.

Definition store_uint (n : nat) (v : Z) : list byte :=
  match endianness with
  | LittleEndian => store_le n v
  | BigEndian => rev (store_le n v)
  end.

Definition padding (n : Z) : list byte := replicate (Z.to_nat n) x00.

Definition object_of (r : params_t) : list byte :=
  store_uint 4 (cmd r)
    ++ padding (offsetof_vaddr - (offsetof_cmd + 4))
    ++ store_uint (Z.to_nat sizeof_ptr) (vaddr r)
    ++ padding (offsetof_len - (offsetof_vaddr + sizeof_ptr))
    ++ store_uint 4 (len r)
    ++ padding (sizeof_params_t - (offsetof_len + 4)).

(** Every member holds a value of its type. *)
Definition valid_record (r : params_t) : Prop :=
  0 <= cmd r < 2 ^ 32 /\
  0 <= vaddr r < 2 ^ (8 * sizeof_ptr) /\
  0 <= len r < 2 ^ 32.
End Objects.

(** The machine with user memory replaced. *)
Definition with_user (u : Z -> byte) (m : machine) : machine :=
  {| statics := statics m; user := u; kernel := kernel m; klog := klog m |}.

(** The spec's HolderCount. *)
Definition holder_count (m : machine) : Z :=
  wy_module_open_count (statics m).

(** ** A target to evaluate on

    x86-64 Linux: 8-byte pointers, little-endian, [EBUSY] is 16, an error
    pointer is one of the top 4095 addresses, and a device number packs the
    major above 20 bits of minor. *)
Definition linux_x86_64 : Platform :=
  {| pointers := LP64;
     endianness := LittleEndian;
     EBUSY := 16;
     IS_ERR := fun p => 2 ^ 64 - 4095 <=? p;
     PTR_ERR := fun p => if 2 ^ 63 <=? p then p - 2 ^ 64 else p;
     MKDEV := fun ma mi => Z.lor (Z.shiftl ma 20) mi |}.

(** A kernel on which every registration step succeeds. *)
Definition kernel_ok : answers :=
  {| ans_register_chrdev := 240;
     ans_class_create := 0xffff888000100000;
     ans_device_create := 0xffff888000200000 |}.

(** User memory holding the bytes 0, 1, 2, ... at the addresses 0, 1, 2, ... *)
Definition user_ramp (a : Z) : byte :=
  default x00 (Byte.of_N (Z.to_N (a mod 256))).

(** A kernel whose [class_create] fails with [-ENOMEM], and one whose
    [device_create] does. *)
Definition kernel_no_class : answers :=
  {| ans_register_chrdev := 240;
     ans_class_create := 2 ^ 64 - 12;
     ans_device_create := 0xffff888000200000 |}.

Definition kernel_no_device : answers :=
  {| ans_register_chrdev := 240;
     ans_class_create := 0xffff888000100000;
     ans_device_create := 2 ^ 64 - 12 |}.

(** The record of the spec's end-to-end scenario, and user memory that
    holds the bytes [bs] from address [addr] on. *)
Definition demo_record : params_t :=
  {| cmd := 7; vaddr := 0x1000; len := 64 |}.

Definition user_holding (addr : Z) (bs : list byte) (a : Z) : byte :=
  default x00 (bs !! Z.to_nat (a - addr)).

(** A freshly loaded module on that target, with the scenario's record
    waiting at user address 4096; the same with the endpoint held. *)
Definition demo_machine : machine :=
  @initial linux_x86_64
    (user_holding 4096 (@object_of linux_x86_64 demo_record)) kernel_ok.

Definition demo_machine_held : machine :=
  snd (@wy_module_open linux_x86_64 demo_machine).

(** Freshly loaded modules facing the kernels whose class or device
    creation fails. *)
Definition demo_machine_no_class : machine :=
  @initial linux_x86_64 user_ramp kernel_no_class.

Definition demo_machine_no_device : machine :=
  @initial linux_x86_64 user_ramp kernel_no_device.

(** ** Observers for the wider properties *)

(** Module references taken by [try_module_get] and dropped by
    [module_put], read off the record of calls. *)
Definition took_ref (c : kcall) : bool :=
  match c with Ktry_module_get => true | _ => false end.
Definition dropped_ref (c : kcall) : bool :=
  match c with Kmodule_put => true | _ => false end.
Definition module_refs (log : list kcall) : Z :=
  tally took_ref log - tally dropped_ref log.

(** The entry points that can change the stored record (a write of the
    exact length), the handles (initialisation), and the byte of user
    memory at address [a] (a read of the exact length whose buffer covers
    [a]). *)
Definition is_exact_write `{Platform} (e : entry) : bool :=
  match e with
  | Ewrite _ len => len =? sizeof_params_t
  | _ => false
  end.

Definition is_init (e : entry) : bool :=
  match e with Einit => true | _ => false end.

Definition read_covers `{Platform} (e : entry) (a : Z) : bool :=
  match e with
  | Eread buf len =>
      (len =? sizeof_params_t) && (buf <=? a) && (a <? buf + sizeof_params_t)
  | _ => false
  end.



(** The machine with [wy_module_open_count] replaced. *)
Definition with_count (c : Z) (m : machine) : machine :=
  {| statics := set_open_count c (statics m); user := user m;
     kernel := kernel m; klog := klog m |}.

(** * Properties *)

Local Close Scope string_scope.

Ltac run_monad :=
  unfold try_module_get, module_put, printk, register_chrdev,
    unregister_chrdev, class_create, class_unregister, class_destroy,
    device_create, device_destroy;
  unfold bind, ret, read_statics, write_statics, kcalled, answer; cbn.

Lemma cast_int_small (z : Z) : - 2 ^ 31 <= z < 2 ^ 31 -> cast_int z = z.
Proof. intros Hz. unfold cast_int. rewrite Z.mod_small; lia. Qed.

Section Gate.
Context `{Platform}.

Lemma open_free (m : machine) :
  holder_count m = 0 ->
  wy_module_open m =
    (0, {| statics := set_open_count 1 (statics m); user := user m;
           kernel := kernel m; klog := klog m ++ [Ktry_module_get] |}).
Proof.
  unfold holder_count, wy_module_open. run_monad. intros ->. reflexivity.
Qed.

Lemma open_busy (m : machine) :
  holder_count m <> 0 -> wy_module_open m = (- EBUSY, m).
Proof.
  unfold holder_count, wy_module_open. run_monad. intros Hc.
  destruct (Z.eqb_spec (wy_module_open_count (statics m)) 0); [lia|].
  reflexivity.
Qed.

Lemma release_held (m : machine) :
  holder_count m <> 0 ->
  wy_module_release m =
    (0, {| statics := set_open_count (cast_int (holder_count m - 1))
                        (statics m);
           user := user m; kernel := kernel m;
           klog := klog m ++ [Kmodule_put] |}).
Proof.
  unfold holder_count, wy_module_release. run_monad. intros Hc.
  destruct (Z.eqb_spec (wy_module_open_count (statics m)) 0); [lia|].
  reflexivity.
Qed.

Lemma release_free (m : machine) :
  holder_count m = 0 ->
  wy_module_release m =
    (0, {| statics := statics m; user := user m; kernel := kernel m;
           klog := klog m ++ [Kmodule_put] |}).
Proof.
  unfold holder_count, wy_module_release. run_monad. intros ->. reflexivity.
Qed.

Lemma release_returns_0 (m : machine) : fst (wy_module_release m) = 0.
Proof.
  destruct (Z.eq_dec (holder_count m) 0) as [Hc|Hc].
  - rewrite release_free by exact Hc. reflexivity.
  - rewrite release_held by exact Hc. reflexivity.
Qed.
End Gate.

Section Transfer.
Context `{Platform}.

Lemma bytes_at_length (u : Z -> byte) (addr : Z) (n : nat) :
  length (bytes_at u addr n) = n.
Proof. unfold bytes_at. rewrite length_map, length_seq. reflexivity. Qed.

Lemma bytes_at_S (u : Z -> byte) (addr : Z) (n : nat) :
  bytes_at u addr (S n) = u addr :: bytes_at u (addr + 1) n.
Proof.
  unfold bytes_at. cbn [seq map]. rewrite Z.add_0_r. f_equal.
  rewrite <- seq_shift, map_map. apply map_ext. intros i.
  f_equal. lia.
Qed.

Lemma bytes_at_lookup (u : Z -> byte) (addr : Z) (n i : nat) :
  (i < n)%nat -> bytes_at u addr n !! i = Some (u (addr + Z.of_nat i)).
Proof.
  intros Hi. unfold bytes_at. rewrite list_lookup_fmap.
  rewrite lookup_seq_lt by exact Hi. reflexivity.
Qed.

Lemma overwrite_step (p rest : list byte) (o k : nat) (x : byte) :
  (o < length p)%nat ->
  take (S o) (<[o:=x]> p) ++ rest ++ drop (S o + k) (<[o:=x]> p) =
  take o p ++ (x :: rest) ++ drop (o + S k) p.
Proof.
  intros Ho.
  rewrite (take_S_r _ _ x) by (apply list_lookup_insert_eq; exact Ho).
  rewrite take_insert_ge by lia.
  rewrite drop_insert_lt by lia.
  rewrite <- app_assoc. cbn. rewrite Nat.add_succ_r. reflexivity.
Qed.

Lemma with_params_same (m : machine) : with_params (params (statics m)) m = m.
Proof. destruct m as [[] ? ? ?]. reflexivity. Qed.

Lemma write_loop_step (len : Z) (l : locals) (m : machine) :
  write_loop len l m =
    if bytes l <? len
    then write_loop len (fst (write_body l m)) (snd (write_body l m))
    else (l, m).
Proof.
  rewrite write_loop_unfold_eq at 1. unfold write_loop_unfold.
  destruct (Z_lt_dec (bytes l) len) as [Hlt|Hge]; cbn.
  - destruct (Z.ltb_spec (bytes l) len); [reflexivity|lia].
  - destruct (Z.ltb_spec (bytes l) len); [lia|reflexivity].
Qed.

(** The write loop, run for the [n] iterations that remain, overwrites [n]
    bytes of [params] from [paramPtr] on with the [n] bytes at [buffer]. *)
Lemma write_loop_spec (n : nat) :
  forall (len : Z) (l : locals) (m : machine),
    Z.to_nat (len - bytes l) = n ->
    0 <= paramPtr l ->
    (Z.to_nat (paramPtr l) + n <= length (params (statics m)))%nat ->
    write_loop len l m =
      ({| bytes := bytes l + Z.of_nat n;
          paramPtr := paramPtr l + Z.of_nat n;
          buffer := buffer l + Z.of_nat n |},
       with_params
         (take (Z.to_nat (paramPtr l)) (params (statics m))
            ++ bytes_at (user m) (buffer l) n
            ++ drop (Z.to_nat (paramPtr l) + n) (params (statics m))) m).
Proof.
  induction n as [|k IH]; intros len l m Hn Hoff Hlen.
  - rewrite write_loop_step.
    destruct (Z.ltb_spec (bytes l) len); [lia|].
    cbn [bytes_at seq map app]. rewrite Nat.add_0_r, take_drop.
    rewrite with_params_same. destruct l; cbn.
    rewrite !Z.add_0_r. reflexivity.
  - rewrite write_loop_step.
    destruct (Z.ltb_spec (bytes l) len); [|lia].
    cbn [write_body bind ret get_user store_params write_statics fst snd].
    rewrite IH; cbn [bytes paramPtr buffer statics params set_params user].
    + replace (Z.to_nat (paramPtr l + 1)) with (S (Z.to_nat (paramPtr l)))
        by lia.
      rewrite overwrite_step by lia.
      rewrite <- bytes_at_S.
      unfold with_params; cbn.
      f_equal; f_equal; lia.
    + lia.
    + lia.
    + rewrite length_insert. lia.
Qed.
Lemma read_loop_step (len : Z) (l : locals) (m : machine) :
  read_loop len l m =
    if bytes l <? len
    then read_loop len (fst (read_body l m)) (snd (read_body l m))
    else (l, m).
Proof.
  rewrite read_loop_unfold_eq at 1. unfold read_loop_unfold.
  destruct (Z_lt_dec (bytes l) len) as [Hlt|Hge]; cbn.
  - destruct (Z.ltb_spec (bytes l) len); [reflexivity|lia].
  - destruct (Z.ltb_spec (bytes l) len); [lia|reflexivity].
Qed.

(** The read loop, run for the [n] iterations that remain, leaves everything
    but user memory alone and stores the [n] bytes of [params] from
    [paramPtr] on at the [n] addresses from [buffer] on. *)
Lemma read_loop_spec (n : nat) :
  forall (len : Z) (l : locals) (m : machine),
    Z.to_nat (len - bytes l) = n ->
    0 <= paramPtr l ->
    fst (read_loop len l m) =
      {| bytes := bytes l + Z.of_nat n;
         paramPtr := paramPtr l + Z.of_nat n;
         buffer := buffer l + Z.of_nat n |} /\
    statics (snd (read_loop len l m)) = statics m /\
    kernel (snd (read_loop len l m)) = kernel m /\
    klog (snd (read_loop len l m)) = klog m /\
    forall a : Z,
      user (snd (read_loop len l m)) a =
        if (buffer l <=? a) && (a <? buffer l + Z.of_nat n)
        then default x00
               (params (statics m) !! Z.to_nat (paramPtr l + (a - buffer l)))
        else user m a.
Proof.
  induction n as [|k IH]; intros len l m Hn Hoff.
  - rewrite read_loop_step.
    destruct (Z.ltb_spec (bytes l) len); [lia|]. cbn [fst snd].
    repeat split.
    + destruct l; cbn. rewrite !Z.add_0_r. reflexivity.
    + intros a.
      destruct (Z.leb_spec (buffer l) a), (Z.ltb_spec a (buffer l + Z.of_nat 0));
        cbn; try reflexivity; lia.
  - rewrite read_loop_step.
    destruct (Z.ltb_spec (bytes l) len); [|lia].
    cbn [read_body bind ret put_user load_params read_statics fst snd].
    match goal with |- context [read_loop len ?l1 ?m1] =>
      destruct (IH len l1 m1) as (Hl & Hs & Hk & Hg & Hu);
        [cbn; lia | cbn; lia |]
    end.
    cbn [bytes paramPtr buffer statics user kernel klog] in Hl, Hs, Hk, Hg, Hu.
    rewrite Hl, Hs, Hk, Hg. repeat split.
    + f_equal; lia.
    + intros a. rewrite Hu.
      destruct (Z.leb_spec (buffer l + 1) a),
               (Z.ltb_spec a (buffer l + 1 + Z.of_nat k)),
               (Z.leb_spec (buffer l) a),
               (Z.ltb_spec a (buffer l + Z.of_nat (S k)));
        cbn [andb]; try lia.
      all: destruct (Z.eqb_spec a (buffer l)); try lia; try reflexivity.
      all: f_equal; f_equal; f_equal; lia.
Qed.

Lemma sizeof_params_t_value :
  sizeof_params_t = match pointers with ILP32 => 12 | LP64 => 24 end.
Proof.
  unfold sizeof_params_t, offsetof_len, offsetof_vaddr, offsetof_cmd,
    sizeof_ptr.
  destruct pointers; reflexivity.
Qed.

Lemma sizeof_params_t_pos : 0 < sizeof_params_t.
Proof. rewrite sizeof_params_t_value. destruct pointers; lia. Qed.

(** A call with the wrong length returns 0 at once. *)
Lemma write_wrong_length (m : machine) (buf len : Z) :
  len <> sizeof_params_t -> wy_module_write buf len m = (0, m).
Proof.
  intros Hlen. unfold wy_module_write.
  destruct (Z.eqb_spec len sizeof_params_t); [contradiction|reflexivity].
Qed.

Lemma read_wrong_length (m : machine) (buf len : Z) :
  len <> sizeof_params_t -> wy_module_read buf len m = (0, m).
Proof.
  intros Hlen. unfold wy_module_read.
  destruct (Z.eqb_spec len sizeof_params_t); [contradiction|reflexivity].
Qed.

(** A write of the right length replaces [params] by the bytes at [buf],
    logs the default branch and returns the length. *)
Lemma write_exact_length (m : machine) (buf : Z) :
  well_formed m ->
  wy_module_write buf sizeof_params_t m =
    (sizeof_params_t,
     {| statics := set_params (user_bytes m buf sizeof_params_t) (statics m);
        user := user m; kernel := kernel m;
        klog := klog m ++ [write_default_message] |}).
Proof.
  intros Hwf. unfold well_formed in Hwf.
  pose proof sizeof_params_t_pos as Hpos.
  unfold wy_module_write. rewrite Z.eqb_refl. cbn [negb].
  unfold bind at 1.
  rewrite (write_loop_spec (Z.to_nat sizeof_params_t)); cbn; try lia.
  rewrite take_0, drop_ge by lia. rewrite app_nil_r. cbn.
  unfold user_bytes, write_default_message.
  rewrite Z2Nat.id by lia. reflexivity.
Qed.

(** A read of the right length copies [params] to the bytes at [buf],
    touches nothing else and returns the length. *)
Lemma read_exact_length (m : machine) (buf : Z) :
  fst (wy_module_read buf sizeof_params_t m) = sizeof_params_t /\
  statics (snd (wy_module_read buf sizeof_params_t m)) = statics m /\
  kernel (snd (wy_module_read buf sizeof_params_t m)) = kernel m /\
  klog (snd (wy_module_read buf sizeof_params_t m)) = klog m /\
  (well_formed m ->
   user_bytes (snd (wy_module_read buf sizeof_params_t m)) buf sizeof_params_t
   = params (statics m)) /\
  (forall a : Z, a < buf \/ buf + sizeof_params_t <= a ->
   user (snd (wy_module_read buf sizeof_params_t m)) a = user m a).
Proof.
  pose proof sizeof_params_t_pos as Hpos.
  unfold wy_module_read. rewrite Z.eqb_refl. cbn [negb].
  unfold bind, ret.
  set (l0 := {| bytes := 0; paramPtr := 0; buffer := buf |}).
  destruct (read_loop_spec (Z.to_nat sizeof_params_t) sizeof_params_t l0 m)
    as (Hl & Hs & Hk & Hg & Hu); [cbn; lia | cbn; lia |].
  destruct (read_loop sizeof_params_t l0 m) as [l1 m1].
  cbn [fst snd] in *. subst l1. cbn [bytes buffer paramPtr] in *.
  rewrite Z2Nat.id in Hu by lia.
  subst l0. cbn [bytes buffer paramPtr] in *.
  refine (conj _ (conj Hs (conj Hk (conj Hg (conj _ _))))).
  - lia.
  - intros Hwf. unfold well_formed in Hwf. unfold user_bytes.
    apply list_eq. intros i.
    destruct (Nat.lt_ge_cases i (Z.to_nat sizeof_params_t)) as [Hi|Hi].
    + rewrite bytes_at_lookup by exact Hi. rewrite Hu.
      destruct (Z.leb_spec buf (buf + Z.of_nat i)); [|lia].
      destruct (Z.ltb_spec (buf + Z.of_nat i) (buf + sizeof_params_t)); [|lia].
      cbn [andb].
      replace (Z.to_nat (0 + (buf + Z.of_nat i - buf))) with i by lia.
      destruct (lookup_lt_is_Some_2 (params (statics m)) i) as [x Hx]; [lia|].
      rewrite Hx. reflexivity.
    + rewrite !lookup_ge_None_2; [reflexivity| lia |].
      rewrite bytes_at_length. exact Hi.
  - intros a Ha. rewrite Hu.
    destruct (Z.leb_spec buf a), (Z.ltb_spec a (buf + sizeof_params_t));
      cbn [andb]; try reflexivity; lia.
Qed.
End Transfer.

Section Frame.
Context `{Platform}.

(** What the write loop leaves alone: everything but the contents of
    [params], whose length it keeps. *)
Lemma write_loop_frame (n : nat) :
  forall (len : Z) (l : locals) (m : machine),
    Z.to_nat (len - bytes l) = n ->
    exists p : list byte,
      length p = length (params (statics m)) /\
      snd (write_loop len l m) = with_params p m.
Proof.
  induction n as [|k IH]; intros len l m Hn.
  - rewrite write_loop_step.
    destruct (Z.ltb_spec (bytes l) len); [lia|].
    exists (params (statics m)). split; [reflexivity|].
    cbn. rewrite with_params_same. reflexivity.
  - rewrite write_loop_step.
    destruct (Z.ltb_spec (bytes l) len); [|lia].
    match goal with |- context [write_loop len ?l1 ?m1] =>
      destruct (IH len l1 m1) as (p & Hp & Hm); [cbn; lia|]
    end.
    exists p. split.
    + rewrite Hp. cbn. apply length_insert.
    + rewrite Hm. reflexivity.
Qed.

Lemma write_frame (m : machine) (buf len : Z) :
  exists (p : list byte) (log : list kcall),
    length p = length (params (statics m)) /\
    snd (wy_module_write buf len m) =
      {| statics := set_params p (statics m); user := user m;
         kernel := kernel m; klog := klog m ++ log |}.
Proof.
  unfold wy_module_write.
  destruct (Z.eqb_spec len sizeof_params_t) as [->|Hne]; cbn [negb].
  - set (l0 := {| bytes := 0; paramPtr := 0; buffer := buf |}).
    destruct (write_loop_frame (Z.to_nat (sizeof_params_t - bytes l0))
                sizeof_params_t l0 m eq_refl) as (p & Hp & Hm).
    exists p, [write_default_message]. split; [exact Hp|].
    unfold bind at 1.
    destruct (write_loop sizeof_params_t l0 m) as [l1 m1].
    cbn [snd] in Hm. subst m1. reflexivity.
  - exists (params (statics m)), []. split; [reflexivity|].
    cbn. rewrite app_nil_r. destruct m as [[] ? ? ?]. reflexivity.
Qed.

Lemma read_frame (m : machine) (buf len : Z) :
  statics (snd (wy_module_read buf len m)) = statics m /\
  kernel (snd (wy_module_read buf len m)) = kernel m /\
  klog (snd (wy_module_read buf len m)) = klog m.
Proof.
  destruct (Z.eq_dec len sizeof_params_t) as [->|Hne].
  - destruct (read_exact_length m buf) as (_ & Hs & Hk & Hg & _).
    auto.
  - rewrite read_wrong_length by exact Hne. auto.
Qed.

Lemma init_statics (m : machine) :
  exists major cls dev : Z,
    statics (snd (wy_module_init m)) =
      {| wy_module_open_count := wy_module_open_count (statics m);
         wy_module_major_num := major;
         params := params (statics m);
         wy_module_class := cls;
         wy_module_device := dev |}.
Proof.
  unfold wy_module_init. run_monad.
  destruct (ans_register_chrdev (kernel m) <? 0); cbn;
    [eexists _, _, _; reflexivity|].
  destruct (IS_ERR (ans_class_create (kernel m))); cbn;
    [eexists _, _, _; reflexivity|].
  destruct (IS_ERR (ans_device_create (kernel m))); cbn;
    eexists _, _, _; reflexivity.
Qed.

Lemma exit_result (m : machine) :
  wy_module_exit m =
    (tt,
     {| statics := statics m; user := user m; kernel := kernel m;
        klog := klog m ++ exit_calls (wy_module_major_num (statics m))
                                     (wy_module_class (statics m)) |}).
Proof.
  unfold wy_module_exit. run_monad. rewrite <- !app_assoc. reflexivity.
Qed.

(** Every entry point keeps HolderCount in {0, 1} and the record at its
    size. *)
Lemma enter_invariant (e : entry) (m : machine) :
  (holder_count m = 0 \/ holder_count m = 1) /\ well_formed m ->
  (holder_count (snd (enter e m)) = 0 \/ holder_count (snd (enter e m)) = 1)
  /\ well_formed (snd (enter e m)).
Proof.
  intros [Hc Hwf]. unfold well_formed in *.
  destruct e as [| |buf len|buf len| |]; cbn [enter].
  - destruct Hc as [Hc|Hc].
    + rewrite open_free by exact Hc. cbn. auto.
    + rewrite open_busy by lia. cbn. auto.
  - destruct Hc as [Hc|Hc].
    + rewrite release_free by exact Hc. cbn. auto.
    + rewrite release_held by lia. rewrite Hc.
      change (cast_int (1 - 1)) with 0. cbn. auto.
  - destruct (write_frame m buf len) as (p & log & Hp & ->).
    unfold holder_count in *. cbn. split; [exact Hc|lia].
  - destruct (read_frame m buf len) as (Hs & _ & _).
    unfold holder_count. rewrite Hs. auto.
  - destruct (init_statics m) as (major & cls & dev & Hs).
    unfold holder_count. rewrite Hs. cbn. auto.
  - unfold bind, ret. rewrite exit_result. cbn. auto.
Qed.

Lemma run_invariant (es : list entry) :
  forall m : machine,
    (holder_count m = 0 \/ holder_count m = 1) /\ well_formed m ->
    (holder_count (run es m) = 0 \/ holder_count (run es m) = 1)
    /\ well_formed (run es m).
Proof.
  induction es as [|e es IH]; intros m Hm; cbn [run].
  - exact Hm.
  - apply IH, enter_invariant, Hm.
Qed.

Lemma initial_invariant (u : Z -> byte) (k : answers) :
  (holder_count (initial u k) = 0 \/ holder_count (initial u k) = 1)
  /\ well_formed (initial u k).
Proof.
  split; [left; reflexivity|].
  unfold well_formed. cbn. apply length_replicate.
Qed.
End Frame.

Section Lifecycle.
Context `{Platform}.

Lemma calls_since_app (m m' : machine) (new : list kcall) :
  klog m' = klog m ++ new -> calls_since m m' = new.
Proof. unfold calls_since. intros ->. apply drop_app_length. Qed.

Lemma init_register_failed (m : machine) :
  ans_register_chrdev (kernel m) < 0 ->
  wy_module_init m =
    (ans_register_chrdev (kernel m),
     {| statics := set_major_num (ans_register_chrdev (kernel m)) (statics m);
        user := user m; kernel := kernel m;
        klog := klog m ++
          init_calls_register_failed (ans_register_chrdev (kernel m)) |}).
Proof.
  intros Hmaj. unfold wy_module_init. run_monad.
  destruct (Z.ltb_spec (ans_register_chrdev (kernel m)) 0); [|lia].
  cbn. rewrite <- !app_assoc. reflexivity.
Qed.

Lemma init_class_failed (m : machine) :
  0 <= ans_register_chrdev (kernel m) ->
  IS_ERR (ans_class_create (kernel m)) = true ->
  wy_module_init m =
    (cast_int (PTR_ERR (ans_class_create (kernel m))),
     {| statics := set_class (ans_class_create (kernel m))
                     (set_major_num (ans_register_chrdev (kernel m))
                        (statics m));
        user := user m; kernel := kernel m;
        klog := klog m ++
          init_calls_class_failed (ans_register_chrdev (kernel m))
            (ans_class_create (kernel m)) |}).
Proof.
  intros Hmaj Hcls. unfold wy_module_init. run_monad.
  destruct (Z.ltb_spec (ans_register_chrdev (kernel m)) 0); [lia|].
  cbn. rewrite Hcls. cbn. rewrite <- !app_assoc. reflexivity.
Qed.

Lemma init_device_failed (m : machine) :
  0 <= ans_register_chrdev (kernel m) ->
  IS_ERR (ans_class_create (kernel m)) = false ->
  IS_ERR (ans_device_create (kernel m)) = true ->
  wy_module_init m =
    (cast_int (PTR_ERR (ans_device_create (kernel m))),
     {| statics := set_device (ans_device_create (kernel m))
                     (set_class (ans_class_create (kernel m))
                        (set_major_num (ans_register_chrdev (kernel m))
                           (statics m)));
        user := user m; kernel := kernel m;
        klog := klog m ++
          init_calls_device_failed (ans_register_chrdev (kernel m))
            (ans_class_create (kernel m)) (ans_device_create (kernel m)) |}).
Proof.
  intros Hmaj Hcls Hdev. unfold wy_module_init. run_monad.
  destruct (Z.ltb_spec (ans_register_chrdev (kernel m)) 0); [lia|].
  cbn. rewrite Hcls. cbn. rewrite Hdev. cbn.
  rewrite <- !app_assoc. reflexivity.
Qed.

Lemma init_ok (m : machine) :
  0 <= ans_register_chrdev (kernel m) ->
  IS_ERR (ans_class_create (kernel m)) = false ->
  IS_ERR (ans_device_create (kernel m)) = false ->
  wy_module_init m =
    (0,
     {| statics := set_device (ans_device_create (kernel m))
                     (set_class (ans_class_create (kernel m))
                        (set_major_num (ans_register_chrdev (kernel m))
                           (statics m)));
        user := user m; kernel := kernel m;
        klog := klog m ++
          init_calls_ok (ans_register_chrdev (kernel m))
            (ans_class_create (kernel m)) (ans_device_create (kernel m)) |}).
Proof.
  intros Hmaj Hcls Hdev. unfold wy_module_init. run_monad.
  destruct (Z.ltb_spec (ans_register_chrdev (kernel m)) 0); [lia|].
  cbn. rewrite Hcls. cbn. rewrite Hdev. cbn.
  rewrite <- !app_assoc. reflexivity.
Qed.
End Lifecycle.

Section Records.
Context `{Platform}.

Lemma byte_val_of (z : Z) : 0 <= z < 256 -> byte_val (byte_of z) = z.
Proof.
  intros Hz. unfold byte_val, byte_of.
  destruct (Byte.of_N (Z.to_N z)) as [b|] eqn:Hb.
  - apply Byte.to_of_N in Hb. cbn. rewrite Hb. lia.
  - apply Byte.of_N_None_iff in Hb. lia.
Qed.

Lemma store_le_length (n : nat) (v : Z) : length (store_le n v) = n.
Proof.
  revert v. induction n as [|k IH]; intros v; cbn; [reflexivity|].
  rewrite IH. reflexivity.
Qed.

Lemma store_uint_length (n : nat) (v : Z) : length (store_uint n v) = n.
Proof.
  unfold store_uint. destruct endianness.
  - apply store_le_length.
  - rewrite length_rev. apply store_le_length.
Qed.

Lemma load_store_le (n : nat) :
  forall v : Z, 0 <= v < 256 ^ Z.of_nat n -> load_le (store_le n v) = v.
Proof.
  induction n as [|k IH]; intros v Hv.
  - cbn in *. lia.
  - cbn [store_le load_le].
    rewrite Nat2Z.inj_succ, Z.pow_succ_r in Hv by lia.
    rewrite byte_val_of by (apply Z.mod_pos_bound; lia).
    rewrite IH.
    + pose proof (Z.div_mod v 256). lia.
    + split; [apply Z.div_pos; lia|].
      apply Z.div_lt_upper_bound; lia.
Qed.

Lemma load_store_uint (n : nat) (v : Z) :
  0 <= v < 256 ^ Z.of_nat n -> load_uint (store_uint n v) = v.
Proof.
  intros Hv. unfold load_uint, store_uint. destruct endianness.
  - apply load_store_le, Hv.
  - rewrite rev_involutive. apply load_store_le, Hv.
Qed.

Lemma member_at (a b c : list byte) (off size : Z) :
  Z.to_nat off = length a -> Z.to_nat size = length b ->
  member off size (a ++ b ++ c) = b.
Proof.
  intros Ha Hb. unfold member.
  rewrite Ha, drop_app_length, Hb, take_app_length. reflexivity.
Qed.

Lemma padding_length (n : Z) : length (padding n) = Z.to_nat n.
Proof. apply length_replicate. Qed.

Lemma object_of_length (r : params_t) :
  length (object_of r) = Z.to_nat sizeof_params_t.
Proof.
  unfold object_of.
  rewrite !length_app, !store_uint_length, !padding_length.
  unfold sizeof_params_t, offsetof_len, offsetof_vaddr, offsetof_cmd,
    sizeof_ptr.
  destruct pointers; reflexivity.
Qed.

(** Reading the members back from the object representation of a valid
    record gives the record. *)
Lemma decode_object_of (r : params_t) :
  valid_record r -> decode (object_of r) = r.
Proof.
  intros (Hc & Hv & Hl). destruct r as [c v l]. cbn [cmd vaddr len] in *.
  unfold decode, object_of. cbn [cmd vaddr len]. f_equal.
  - match goal with |- context [member _ _ (?b ++ ?rest)] =>
      change (b ++ rest) with ([] ++ b ++ rest)
    end.
    rewrite member_at
      by (reflexivity || (rewrite store_uint_length; reflexivity)).
    apply load_store_uint. exact Hc.
  - rewrite !(app_assoc (store_uint 4 c)).
    rewrite (member_at _ _ _ offsetof_vaddr sizeof_ptr).
    + apply load_store_uint.
      replace (256 ^ Z.of_nat (Z.to_nat sizeof_ptr))
        with (2 ^ (8 * sizeof_ptr)); [exact Hv|].
      unfold sizeof_ptr. destruct pointers; reflexivity.
    + rewrite length_app, store_uint_length, padding_length.
      unfold offsetof_vaddr, offsetof_cmd, sizeof_ptr.
      destruct pointers; reflexivity.
    + rewrite store_uint_length. reflexivity.
  - rewrite !(app_assoc (store_uint 4 c)).
    rewrite !(app_assoc (_ ++ padding _)).
    rewrite !(app_assoc (_ ++ store_uint _ v)).
    rewrite (member_at _ _ _ offsetof_len 4).
    + apply load_store_uint. exact Hl.
    + rewrite !length_app, !store_uint_length, !padding_length.
      unfold offsetof_len, offsetof_vaddr, offsetof_cmd, sizeof_ptr.
      destruct pointers; reflexivity.
    + rewrite store_uint_length. reflexivity.
Qed.
Lemma user_holding_bytes (addr : Z) (bs : list byte) :
  bytes_at (user_holding addr bs) addr (length bs) = bs.
Proof.
  apply list_eq. intros i.
  destruct (Nat.lt_ge_cases i (length bs)) as [Hi|Hi].
  - rewrite bytes_at_lookup by exact Hi. unfold user_holding.
    replace (Z.to_nat (addr + Z.of_nat i - addr)) with i by lia.
    destruct (lookup_lt_is_Some_2 bs i Hi) as [x Hx].
    rewrite Hx. reflexivity.
  - rewrite !lookup_ge_None_2; [reflexivity|exact Hi|].
    rewrite bytes_at_length. exact Hi.
Qed.
End Records.

(** * The claims *)

Section Claims.
Context `{Platform}.

(** C1. Acquire is exclusive. [wy_module_open] on a machine whose
    HolderCount is 0 returns 0 and leaves HolderCount at 1; on a machine
    whose HolderCount is 1 it returns [-EBUSY] and changes nothing at all;
    a second acquire right after a successful one is refused in that way;
    and after a release of the held endpoint an acquire succeeds again. *)
Theorem acquire_is_exclusive (free held : machine)
    (Hfree : holder_count free = 0) (Hheld : holder_count held = 1) :
  fst (wy_module_open free) = 0 /\
  holder_count (snd (wy_module_open free)) = 1 /\
  wy_module_open held = (- EBUSY, held) /\
  wy_module_open (snd (wy_module_open free))
    = (- EBUSY, snd (wy_module_open free)) /\
  fst (wy_module_release held) = 0 /\
  fst (wy_module_open (snd (wy_module_release held))) = 0 /\
  holder_count (snd (wy_module_open (snd (wy_module_release held)))) = 1.
Proof.
  rewrite (open_free free) by exact Hfree.
  rewrite (release_held held) by lia. rewrite Hheld.
  change (cast_int (1 - 1)) with 0. cbn [fst snd].
  rewrite !open_busy by (unfold holder_count in *; cbn; lia).
  rewrite open_free by reflexivity.
  repeat split.
Qed.

(** C2. Size guard. [wy_module_write] and [wy_module_read] called with a
    length other than [sizeof(params_t)] return 0 and leave the whole
    machine as it was: the stored record, the other statics, user memory
    and the record of kernel calls. *)
Theorem size_guard (m : machine) (buf len : Z)
    (Hlen : len <> sizeof_params_t) :
  wy_module_write buf len m = (0, m) /\
  wy_module_read buf len m = (0, m).
Proof.
  split.
  - apply write_wrong_length, Hlen.
  - apply read_wrong_length, Hlen.
Qed.

(** C4, amended. Release is total, and idempotent on the module's own
    state. [wy_module_release] returns 0 in every state; with HolderCount 1
    it brings it to 0; with HolderCount 0 it leaves the statics and user
    memory as they are and is not an error, but it is not a no-op: it still
    calls [module_put]; two releases in a row both return 0 and, from a
    HolderCount that is not negative, never leave a negative one. *)
Theorem release_is_idempotent_and_total (m free held : machine)
    (Hfree : holder_count free = 0) (Hheld : holder_count held = 1) :
  fst (wy_module_release m) = 0 /\
  fst (wy_module_release (snd (wy_module_release m))) = 0 /\
  (0 <= holder_count m < 2 ^ 31 ->
   0 <= holder_count (snd (wy_module_release (snd (wy_module_release m)))))
  /\
  holder_count (snd (wy_module_release held)) = 0 /\
  holder_count (snd (wy_module_release (snd (wy_module_release held)))) = 0
  /\
  wy_module_release free =
    (0, {| statics := statics free; user := user free;
           kernel := kernel free; klog := klog free ++ [Kmodule_put] |}) /\
  holder_count (snd (wy_module_release (snd (wy_module_release free)))) = 0.
Proof.
  split; [apply release_returns_0|].
  split; [apply release_returns_0|].
  split.
  - intros Hm.
    destruct (Z.eq_dec (holder_count m) 0) as [Hc|Hc].
    + rewrite (release_free m) by exact Hc. cbn [snd].
      rewrite release_free by exact Hc. unfold holder_count in *. cbn. lia.
    + rewrite (release_held m) by exact Hc. cbn [snd].
      rewrite (cast_int_small (holder_count m - 1)) by lia.
      destruct (Z.eq_dec (holder_count m - 1) 0) as [Hc1|Hc1].
      * rewrite release_free by exact Hc1. unfold holder_count in *. cbn. lia.
      * rewrite release_held by exact Hc1. unfold holder_count in *. cbn.
        rewrite cast_int_small by lia. lia.
  - rewrite (release_held held) by lia. rewrite Hheld.
    change (cast_int (1 - 1)) with 0. cbn [snd].
    rewrite (release_free free) by exact Hfree. cbn [snd].
    rewrite !release_free by (unfold holder_count in *; cbn; lia).
    unfold holder_count in *. cbn. auto.
Qed.

(** C5. HolderCount invariant. After any sequence of entry points (acquire,
    release, read, write, and also module initialisation and exit) run from
    the initial state, HolderCount is 0 or 1; and read, write,
    initialisation and exit never change it, whatever the state. *)
Theorem holder_count_invariant (u : Z -> byte) (k : answers)
    (es : list entry) (m : machine) (buf len : Z) :
  (holder_count (run es (initial u k)) = 0 \/
   holder_count (run es (initial u k)) = 1) /\
  holder_count (snd (wy_module_write buf len m)) = holder_count m /\
  holder_count (snd (wy_module_read buf len m)) = holder_count m /\
  holder_count (snd (wy_module_init m)) = holder_count m /\
  holder_count (snd (wy_module_exit m)) = holder_count m.
Proof.
  split; [apply run_invariant, initial_invariant|].
  unfold holder_count. refine (conj _ (conj _ (conj _ _))).
  - destruct (write_frame m buf len) as (p & log & _ & ->). reflexivity.
  - destruct (read_frame m buf len) as (-> & _). reflexivity.
  - destruct (init_statics m) as (major & cls & dev & ->). reflexivity.
  - rewrite exit_result. reflexivity.
Qed.
(** C3. Round trip. From a state whose record has its size, a write of the
    [sizeof(params_t)] bytes at [src] followed by a read of that length to
    [dst] both return that length, and the bytes delivered at [dst] are the
    bytes that were at [src]. The other way round, the bytes a read
    delivers, written back by a write (even after the stored record has been
    overwritten by other bytes), restore the stored record; and when the
    bytes at [src] are the object representation of a valid record, the
    members of the stored record after the write are that record's. *)
Theorem round_trip (m : machine) (src dst : Z) (Hwf : well_formed m) :
  fst (wy_module_write src sizeof_params_t m) = sizeof_params_t /\
  fst (wy_module_read dst sizeof_params_t
         (snd (wy_module_write src sizeof_params_t m))) = sizeof_params_t /\
  user_bytes
    (snd (wy_module_read dst sizeof_params_t
            (snd (wy_module_write src sizeof_params_t m))))
    dst sizeof_params_t
  = user_bytes m src sizeof_params_t /\
  (forall other : list byte,
     length other = Z.to_nat sizeof_params_t ->
     params (statics (snd (wy_module_write dst sizeof_params_t
                             (with_params other
                                (snd (wy_module_read dst sizeof_params_t m))))))
     = params (statics m)) /\
  (forall r : params_t,
     valid_record r ->
     user_bytes m src sizeof_params_t = object_of r ->
     decode (params (statics (snd (wy_module_write src sizeof_params_t m))))
     = r).
Proof.
  rewrite (write_exact_length m src Hwf). cbn [fst snd].
  set (m1 := {| statics := _; klog := _ |}).
  assert (Hwf1 : well_formed m1).
  { unfold well_formed, m1, user_bytes. cbn. apply bytes_at_length. }
  destruct (read_exact_length m1 dst) as (Hr & _ & _ & _ & Hb & _).
  destruct (read_exact_length m dst) as (_ & _ & _ & _ & Hb0 & _).
  refine (conj eq_refl (conj Hr (conj _ (conj _ _)))).
  - rewrite (Hb Hwf1). reflexivity.
  - intros other Hother.
    rewrite write_exact_length by exact Hother.
    cbn. exact (Hb0 Hwf).
  - intros r Hvalid Hsrc. subst m1. cbn. rewrite Hsrc.
    apply decode_object_of, Hvalid.
Qed.

(** C6. Successful write. From a state whose record has its size, a write
    of exactly [sizeof(params_t)] bytes returns [sizeof(params_t)], stores
    the bytes at [buf] as the record (the stored record read back is those
    bytes, and its members are what they decode to), leaves the other
    statics alone, and takes the [default:] branch, whose only effect is its
    [printk]. No command value is refused: for every valid record [r],
    whatever its [cmd], a write of its bytes returns [sizeof(params_t)] and
    leaves a stored record that is the bytes of [r] and whose members are
    those of [r]. *)
Theorem write_accepts_every_record (m : machine) (buf : Z) (r : params_t)
    (Hwf : well_formed m) (Hr : valid_record r) :
  wy_module_write buf sizeof_params_t m =
    (sizeof_params_t,
     {| statics := set_params (user_bytes m buf sizeof_params_t) (statics m);
        user := user m; kernel := kernel m;
        klog := klog m ++ [write_default_message] |}) /\
  params (statics (snd (wy_module_write buf sizeof_params_t m)))
    = user_bytes m buf sizeof_params_t /\
  decode (params (statics (snd (wy_module_write buf sizeof_params_t m))))
    = decode (user_bytes m buf sizeof_params_t) /\
  wy_module_open_count (statics (snd (wy_module_write buf sizeof_params_t m)))
    = wy_module_open_count (statics m) /\
  wy_module_major_num (statics (snd (wy_module_write buf sizeof_params_t m)))
    = wy_module_major_num (statics m) /\
  wy_module_class (statics (snd (wy_module_write buf sizeof_params_t m)))
    = wy_module_class (statics m) /\
  wy_module_device (statics (snd (wy_module_write buf sizeof_params_t m)))
    = wy_module_device (statics m) /\
  wy_module_write buf sizeof_params_t
    (with_user (user_holding buf (object_of r)) m) =
    (sizeof_params_t,
     {| statics := set_params (object_of r) (statics m);
        user := user_holding buf (object_of r); kernel := kernel m;
        klog := klog m ++ [write_default_message] |}) /\
  params (statics (snd (wy_module_write buf sizeof_params_t
                          (with_user (user_holding buf (object_of r)) m))))
    = object_of r /\
  decode (params (statics (snd (wy_module_write buf sizeof_params_t
                                  (with_user (user_holding buf (object_of r))
                                     m)))))
    = r /\
  cmd (decode (params (statics (snd (wy_module_write buf sizeof_params_t
                                       (with_user
                                          (user_holding buf (object_of r))
                                          m))))))
    = cmd r /\
  decode (object_of r) = r.
Proof.
  pose proof (decode_object_of r Hr) as Hd.
  assert (Hw2 : wy_module_write buf sizeof_params_t
                  (with_user (user_holding buf (object_of r)) m) =
                (sizeof_params_t,
                 {| statics := set_params (object_of r) (statics m);
                    user := user_holding buf (object_of r);
                    kernel := kernel m;
                    klog := klog m ++ [write_default_message] |})).
  { rewrite write_exact_length by exact Hwf.
    unfold user_bytes. cbn.
    rewrite <- (object_of_length r), user_holding_bytes. reflexivity. }
  rewrite Hw2, (write_exact_length m buf Hwf).
  cbn [snd statics params set_params wy_module_open_count
       wy_module_major_num wy_module_class wy_module_device].
  rewrite Hd. repeat split.
Qed.

(** C7. Rollback on class-bind failure. When [register_chrdev] succeeds and
    [class_create] returns an error pointer, [wy_module_init] unregisters
    the major number it was given and returns the error of [class_create]
    ([PTR_ERR] of the pointer, as an [int]). [unregister_chrdev] has no
    result, so nothing the rollback does can reach the returned value.
    Afterwards no major number is held. *)
Theorem class_bind_failure_rolls_back (m : machine)
    (Hreg : 0 <= ans_register_chrdev (kernel m))
    (Hcls : IS_ERR (ans_class_create (kernel m)) = true) :
  fst (wy_module_init m) = cast_int (PTR_ERR (ans_class_create (kernel m)))
  /\
  (- 2 ^ 31 <= PTR_ERR (ans_class_create (kernel m)) < 2 ^ 31 ->
   fst (wy_module_init m) = PTR_ERR (ans_class_create (kernel m))) /\
  calls_since m (snd (wy_module_init m)) =
    init_calls_class_failed (ans_register_chrdev (kernel m))
      (ans_class_create (kernel m)) /\
  majors_held (calls_since m (snd (wy_module_init m))) = 0 /\
  classes_held (calls_since m (snd (wy_module_init m))) = 0 /\
  devices_held (calls_since m (snd (wy_module_init m))) = 0.
Proof.
  rewrite (init_class_failed m Hreg Hcls). cbn [fst snd].
  rewrite (calls_since_app m _ (init_calls_class_failed _ _)) by reflexivity.
  split; [reflexivity|]. split; [intros Hint; apply cast_int_small, Hint|].
  split; [reflexivity|].
  unfold majors_held, classes_held, devices_held, init_calls_class_failed.
  cbn. rewrite Hcls. cbn.
  destruct (Z.leb_spec 0 (ans_register_chrdev (kernel m))); [|lia].
  auto.
Qed.

(** C8. Rollback on expose failure. When [register_chrdev] and
    [class_create] succeed and [device_create] returns an error pointer,
    [wy_module_init] calls [class_destroy] on the class and then
    [unregister_chrdev] on the major number, in that order, and returns the
    error of [device_create]. Afterwards no major number, class or device
    is held. *)
Theorem expose_failure_rolls_back (m : machine)
    (Hreg : 0 <= ans_register_chrdev (kernel m))
    (Hcls : IS_ERR (ans_class_create (kernel m)) = false)
    (Hdev : IS_ERR (ans_device_create (kernel m)) = true) :
  fst (wy_module_init m) = cast_int (PTR_ERR (ans_device_create (kernel m)))
  /\
  (- 2 ^ 31 <= PTR_ERR (ans_device_create (kernel m)) < 2 ^ 31 ->
   fst (wy_module_init m) = PTR_ERR (ans_device_create (kernel m))) /\
  calls_since m (snd (wy_module_init m)) =
    init_calls_device_failed (ans_register_chrdev (kernel m))
      (ans_class_create (kernel m)) (ans_device_create (kernel m)) /\
  (exists before after : list kcall,
     calls_since m (snd (wy_module_init m)) =
       before
         ++ [Kclass_destroy (ans_class_create (kernel m));
             Kunregister_chrdev (ans_register_chrdev (kernel m)) DEVICE_NAME]
         ++ after /\
     tally gave_class before = 0 /\ tally gave_major before = 0 /\
     tally gave_class after = 0 /\ tally gave_major after = 0) /\
  majors_held (calls_since m (snd (wy_module_init m))) = 0 /\
  classes_held (calls_since m (snd (wy_module_init m))) = 0 /\
  devices_held (calls_since m (snd (wy_module_init m))) = 0.
Proof.
  rewrite (init_device_failed m Hreg Hcls Hdev). cbn [fst snd].
  rewrite (calls_since_app m _ (init_calls_device_failed _ _ _))
    by reflexivity.
  split; [reflexivity|]. split; [intros Hint; apply cast_int_small, Hint|].
  split; [reflexivity|].
  split.
  - exists (take 5 (init_calls_device_failed
                      (ans_register_chrdev (kernel m))
                      (ans_class_create (kernel m))
                      (ans_device_create (kernel m)))),
           (drop 7 (init_calls_device_failed
                      (ans_register_chrdev (kernel m))
                      (ans_class_create (kernel m))
                      (ans_device_create (kernel m)))).
    cbn. auto.
  - unfold majors_held, classes_held, devices_held, init_calls_device_failed.
    cbn. rewrite Hcls, Hdev. cbn.
    destruct (Z.leb_spec 0 (ans_register_chrdev (kernel m))); [|lia].
    auto.
Qed.

(** C9. Teardown. In every state, whatever HolderCount is,
    [wy_module_exit] leaves the statics alone and makes exactly these
    calls, in this order: [device_destroy], [class_unregister],
    [class_destroy], [unregister_chrdev] (and a [printk]). The device and
    the major number are each released by one call; the class is passed to
    two releasing calls, [class_unregister] and then [class_destroy]. *)
Theorem teardown_releases_class_twice (m : machine) :
  statics (snd (wy_module_exit m)) = statics m /\
  calls_since m (snd (wy_module_exit m)) =
    exit_calls (wy_module_major_num (statics m))
      (wy_module_class (statics m)) /\
  tally gave_device (calls_since m (snd (wy_module_exit m))) = 1 /\
  tally gave_major (calls_since m (snd (wy_module_exit m))) = 1 /\
  tally gave_class (calls_since m (snd (wy_module_exit m))) = 2.
Proof.
  rewrite exit_result. cbn [snd].
  rewrite (calls_since_app m _ (exit_calls _ _)) by reflexivity.
  repeat split.
Qed.

(** C10. Read is state-preserving. A read of any length leaves the
    statics (the stored record and HolderCount among them), the kernel's
    answers and the record of kernel calls as they were; and from a state
    whose record has its size, two reads of [sizeof(params_t)] bytes in a
    row both return that length and deliver the same bytes. *)
Theorem read_preserves_state (m : machine) (buf len buf1 buf2 : Z)
    (Hwf : well_formed m) :
  statics (snd (wy_module_read buf len m)) = statics m /\
  kernel (snd (wy_module_read buf len m)) = kernel m /\
  klog (snd (wy_module_read buf len m)) = klog m /\
  fst (wy_module_read buf1 sizeof_params_t m) = sizeof_params_t /\
  fst (wy_module_read buf2 sizeof_params_t
         (snd (wy_module_read buf1 sizeof_params_t m))) = sizeof_params_t /\
  user_bytes (snd (wy_module_read buf1 sizeof_params_t m))
    buf1 sizeof_params_t
  = user_bytes
      (snd (wy_module_read buf2 sizeof_params_t
              (snd (wy_module_read buf1 sizeof_params_t m))))
      buf2 sizeof_params_t.
Proof.
  destruct (read_frame m buf len) as (Hs & Hk & Hg).
  destruct (read_exact_length m buf1) as (Hr1 & Hs1 & _ & _ & Hb1 & _).
  destruct (read_exact_length
              (snd (wy_module_read buf1 sizeof_params_t m)) buf2)
    as (Hr2 & _ & _ & _ & Hb2 & _).
  refine (conj Hs (conj Hk (conj Hg (conj Hr1 (conj Hr2 _))))).
  rewrite (Hb1 Hwf). rewrite Hb2; [rewrite Hs1; reflexivity|].
  unfold well_formed. rewrite Hs1. exact Hwf.
Qed.
End Claims.

Lemma acquire_is_exclusive_witness :
  holder_count demo_machine = 0 /\
  holder_count demo_machine_held = 1 /\
  @wy_module_open linux_x86_64 demo_machine_held = (- 16, demo_machine_held)
  /\
  fst (@wy_module_open linux_x86_64
         (snd (wy_module_release demo_machine_held))) = 0.
Proof.
  split; [reflexivity|]. split; [reflexivity|].
  destruct (@acquire_is_exclusive linux_x86_64 demo_machine demo_machine_held
              eq_refl eq_refl) as (_ & _ & Hbusy & _ & _ & Hagain & _).
  split; [exact Hbusy | exact Hagain].
Defined.

Lemma size_guard_witness :
  11 <> @sizeof_params_t linux_x86_64 /\
  @wy_module_write linux_x86_64 4096 11 demo_machine = (0, demo_machine) /\
  @wy_module_read linux_x86_64 4096 11 demo_machine = (0, demo_machine).
Proof.
  assert (Hlen : 11 <> @sizeof_params_t linux_x86_64) by (vm_compute; discriminate).
  split; [exact Hlen|].
  apply (@size_guard linux_x86_64 demo_machine 4096 11 Hlen).
Defined.

Lemma release_is_idempotent_and_total_witness :
  holder_count demo_machine = 0 /\
  holder_count demo_machine_held = 1 /\
  holder_count (snd (wy_module_release demo_machine_held)) = 0
  /\
  holder_count (snd (wy_module_release
                       (snd (wy_module_release demo_machine))))
    = 0.
Proof.
  split; [reflexivity|]. split; [reflexivity|].
  destruct (release_is_idempotent_and_total demo_machine
              demo_machine demo_machine_held eq_refl eq_refl)
    as (_ & _ & _ & Hheld & _ & _ & Hfree).
  split; [exact Hheld | exact Hfree].
Defined.

(** C4 as it is stated does not hold: on a freshly loaded module, whose
    HolderCount is 0, [wy_module_release] is not a no-op. It calls
    [module_put], so the machine after it differs from the machine before,
    and a second release calls it again: two module references are dropped
    with none taken. *)
Lemma release_at_zero_is_not_a_no_op :
  holder_count demo_machine = 0 /\
  klog demo_machine = [] /\
  klog (snd (wy_module_release demo_machine)) = [Kmodule_put] /\
  snd (wy_module_release demo_machine) <> demo_machine /\
  snd (wy_module_release (snd (wy_module_release demo_machine)))
    <> snd (wy_module_release demo_machine) /\
  module_refs
    (klog (snd (wy_module_release (snd (wy_module_release demo_machine)))))
    = - 2.
Proof.
  split; [reflexivity|]. split; [reflexivity|]. split; [reflexivity|].
  split; [|split; [|reflexivity]].
  - intros Heq. apply (f_equal klog) in Heq. vm_compute in Heq.
    discriminate Heq.
  - intros Heq. apply (f_equal klog) in Heq. vm_compute in Heq.
    discriminate Heq.
Qed.

Lemma round_trip_witness :
  @well_formed linux_x86_64 demo_machine /\
  user_bytes
    (snd (@wy_module_read linux_x86_64 8192 (@sizeof_params_t linux_x86_64)
            (snd (@wy_module_write linux_x86_64 4096
                    (@sizeof_params_t linux_x86_64) demo_machine))))
    8192 (@sizeof_params_t linux_x86_64)
  = user_bytes demo_machine 4096 (@sizeof_params_t linux_x86_64).
Proof.
  assert (Hwf : @well_formed linux_x86_64 demo_machine) by reflexivity.
  split; [exact Hwf|].
  destruct (@round_trip linux_x86_64 demo_machine 4096 8192 Hwf)
    as (_ & _ & Hbytes & _).
  exact Hbytes.
Defined.

Lemma write_accepts_every_record_witness :
  @well_formed linux_x86_64 demo_machine /\
  @valid_record linux_x86_64 demo_record /\
  fst (@wy_module_write linux_x86_64 4096 (@sizeof_params_t linux_x86_64)
         demo_machine) = 24 /\
  params (statics (snd (@wy_module_write linux_x86_64 4096
                          (@sizeof_params_t linux_x86_64) demo_machine)))
    = @object_of linux_x86_64 demo_record /\
  @decode linux_x86_64
    (params (statics (snd (@wy_module_write linux_x86_64 4096
                             (@sizeof_params_t linux_x86_64) demo_machine))))
    = demo_record /\
  params (statics demo_machine)
    <> params (statics (snd (@wy_module_write linux_x86_64 4096
                               (@sizeof_params_t linux_x86_64)
                               demo_machine))) /\
  @decode linux_x86_64 (@object_of linux_x86_64 demo_record) = demo_record.
Proof.
  assert (Hwf : @well_formed linux_x86_64 demo_machine) by reflexivity.
  assert (Hr : @valid_record linux_x86_64 demo_record)
    by (unfold valid_record; cbn; lia).
  split; [exact Hwf|]. split; [exact Hr|].
  destruct (@write_accepts_every_record linux_x86_64 demo_machine 4096
              demo_record Hwf Hr)
    as (Hw & Hp & Hdp & _ & _ & _ & _ & _ & _ & _ & _ & Hd).
  split; [rewrite Hw; reflexivity|].
  split; [rewrite Hp; reflexivity|].
  split; [rewrite Hdp; reflexivity|].
  split; [rewrite Hp; intros Heq; vm_compute in Heq; discriminate Heq|].
  exact Hd.
Defined.

Lemma class_bind_failure_rolls_back_witness :
  0 <= ans_register_chrdev (kernel demo_machine_no_class) /\
  @IS_ERR linux_x86_64 (ans_class_create (kernel demo_machine_no_class))
    = true /\
  fst (@wy_module_init linux_x86_64 demo_machine_no_class) = - 12 /\
  majors_held
    (calls_since demo_machine_no_class
       (snd (@wy_module_init linux_x86_64 demo_machine_no_class))) = 0.
Proof.
  assert (Hreg : 0 <= ans_register_chrdev (kernel demo_machine_no_class))
    by (cbn; lia).
  split; [exact Hreg|]. split; [reflexivity|].
  destruct (@class_bind_failure_rolls_back linux_x86_64 demo_machine_no_class
              Hreg eq_refl) as (Hret & _ & _ & Hmaj & _).
  split; [rewrite Hret; reflexivity | exact Hmaj].
Defined.

Lemma expose_failure_rolls_back_witness :
  0 <= ans_register_chrdev (kernel demo_machine_no_device) /\
  @IS_ERR linux_x86_64 (ans_class_create (kernel demo_machine_no_device))
    = false /\
  @IS_ERR linux_x86_64 (ans_device_create (kernel demo_machine_no_device))
    = true /\
  fst (@wy_module_init linux_x86_64 demo_machine_no_device) = - 12 /\
  @classes_held linux_x86_64
    (calls_since demo_machine_no_device
       (snd (@wy_module_init linux_x86_64 demo_machine_no_device))) = 0.
Proof.
  assert (Hreg : 0 <= ans_register_chrdev (kernel demo_machine_no_device))
    by (cbn; lia).
  split; [exact Hreg|]. split; [reflexivity|]. split; [reflexivity|].
  destruct (@expose_failure_rolls_back linux_x86_64 demo_machine_no_device
              Hreg eq_refl eq_refl) as (Hret & _ & _ & _ & _ & Hcls & _).
  split; [rewrite Hret; reflexivity | exact Hcls].
Defined.

Lemma read_preserves_state_witness :
  @well_formed linux_x86_64 demo_machine /\
  statics (snd (@wy_module_read linux_x86_64 4096 5 demo_machine))
    = statics demo_machine /\
  user_bytes
    (snd (@wy_module_read linux_x86_64 8192 (@sizeof_params_t linux_x86_64)
            demo_machine))
    8192 (@sizeof_params_t linux_x86_64)
  = user_bytes
      (snd (@wy_module_read linux_x86_64 9000 (@sizeof_params_t linux_x86_64)
              (snd (@wy_module_read linux_x86_64 8192
                      (@sizeof_params_t linux_x86_64) demo_machine))))
      9000 (@sizeof_params_t linux_x86_64).
Proof.
  assert (Hwf : @well_formed linux_x86_64 demo_machine) by reflexivity.
  split; [exact Hwf|].
  destruct (@read_preserves_state linux_x86_64 demo_machine 4096 5 8192 9000
              Hwf) as (Hs & _ & _ & _ & _ & Hsame).
  split; [exact Hs | exact Hsame].
Defined.

(** Loading the module on a kernel where every step succeeds and unloading
    it again: the major number and the device are each obtained once and
    released once, the class is obtained once and released twice. *)
Example load_then_unload_class_balance :
  majors_held
    (klog (@run linux_x86_64 [Einit; Eexit] demo_machine)) = 0 /\
  @devices_held linux_x86_64
    (klog (@run linux_x86_64 [Einit; Eexit] demo_machine)) = 0 /\
  @classes_held linux_x86_64
    (klog (@run linux_x86_64 [Einit; Eexit] demo_machine)) = - 1.
Proof. vm_compute. auto. Qed.

(** * Further properties of the entry points *)

Section Wider.
Context `{Platform}.

Lemma tally_app (p : kcall -> bool) (a b : list kcall) :
  tally p (a ++ b) = tally p a + tally p b.
Proof.
  induction a as [|c a IH]; cbn [tally app]; [reflexivity|].
  rewrite IH. lia.
Qed.

Lemma module_refs_app (a b : list kcall) :
  module_refs (a ++ b) = module_refs a + module_refs b.
Proof. unfold module_refs. rewrite !tally_app. lia. Qed.

(** The four ways through [wy_module_init], by what the kernel answers. *)
Lemma init_paths (m : machine) :
  (ans_register_chrdev (kernel m) < 0) \/
  (0 <= ans_register_chrdev (kernel m) /\
   IS_ERR (ans_class_create (kernel m)) = true) \/
  (0 <= ans_register_chrdev (kernel m) /\
   IS_ERR (ans_class_create (kernel m)) = false /\
   IS_ERR (ans_device_create (kernel m)) = true) \/
  (0 <= ans_register_chrdev (kernel m) /\
   IS_ERR (ans_class_create (kernel m)) = false /\
   IS_ERR (ans_device_create (kernel m)) = false).
Proof.
  destruct (Z.lt_ge_cases (ans_register_chrdev (kernel m)) 0); [auto|].
  destruct (IS_ERR (ans_class_create (kernel m))); [auto|].
  destruct (IS_ERR (ans_device_create (kernel m))); auto 6.
Qed.

Lemma init_calls (m : machine) :
  exists new : list kcall,
    klog (snd (wy_module_init m)) = klog m ++ new /\
    module_refs new = 0 /\
    user (snd (wy_module_init m)) = user m /\
    kernel (snd (wy_module_init m)) = kernel m.
Proof.
  destruct (init_paths m) as [Hr|[[Hr Hc]|[(Hr & Hc & Hd)|(Hr & Hc & Hd)]]].
  - rewrite (init_register_failed m Hr). eexists. cbn. repeat split.
  - rewrite (init_class_failed m Hr Hc). eexists. cbn. repeat split.
  - rewrite (init_device_failed m Hr Hc Hd). eexists. cbn. repeat split.
  - rewrite (init_ok m Hr Hc Hd). eexists. cbn. repeat split.
Qed.

Lemma open_cases (m : machine) :
  (holder_count m = 0 /\
   wy_module_open m =
     (0, {| statics := set_open_count 1 (statics m); user := user m;
            kernel := kernel m; klog := klog m ++ [Ktry_module_get] |})) \/
  (holder_count m <> 0 /\ wy_module_open m = (- EBUSY, m)).
Proof.
  destruct (Z.eq_dec (holder_count m) 0) as [Hc|Hc].
  - left. split; [exact Hc|]. apply open_free, Hc.
  - right. split; [exact Hc|]. apply open_busy, Hc.
Qed.

Lemma release_cases (m : machine) :
  exists c : Z,
    wy_module_release m =
      (0, {| statics := set_open_count c (statics m); user := user m;
             kernel := kernel m; klog := klog m ++ [Kmodule_put] |}) /\
    (holder_count m = 0 -> c = 0) /\
    (holder_count m = 1 -> c = 0).
Proof.
  destruct (Z.eq_dec (holder_count m) 0) as [Hc|Hc].
  - exists 0. rewrite (release_free m Hc). split.
    + unfold holder_count in Hc. destruct m as [[] ? ? ?]. cbn in *.
      subst. reflexivity.
    + auto.
  - exists (cast_int (holder_count m - 1)). rewrite (release_held m Hc).
    split; [reflexivity|]. split; [intros; contradiction|].
    intros ->. reflexivity.
Qed.

(** The byte counter the write loop ends with, whatever the state. *)
Lemma write_loop_bytes (n : nat) :
  forall (len : Z) (l : locals) (m : machine),
    Z.to_nat (len - bytes l) = n ->
    bytes (fst (write_loop len l m)) = bytes l + Z.of_nat n.
Proof.
  induction n as [|k IH]; intros len l m Hn.
  - rewrite write_loop_step.
    destruct (Z.ltb_spec (bytes l) len); [lia|]. cbn. lia.
  - rewrite write_loop_step.
    destruct (Z.ltb_spec (bytes l) len); [|lia].
    rewrite IH by (cbn; lia). cbn. lia.
Qed.

(** What a write leaves behind, for any length and any state. *)
Lemma write_effect (m : machine) (buf len : Z) :
  exists p : list byte,
    length p = length (params (statics m)) /\
    (len <> sizeof_params_t -> p = params (statics m)) /\
    wy_module_write buf len m =
      (if len =? sizeof_params_t then sizeof_params_t else 0,
       {| statics := set_params p (statics m); user := user m;
          kernel := kernel m;
          klog := klog m ++
            (if len =? sizeof_params_t then [write_default_message]
             else []) |}).
Proof.
  pose proof sizeof_params_t_pos as Hpos.
  unfold wy_module_write.
  destruct (Z.eqb_spec len sizeof_params_t) as [->|Hne]; cbn [negb].
  - set (l0 := {| bytes := 0; paramPtr := 0; buffer := buf |}).
    destruct (write_loop_frame (Z.to_nat (sizeof_params_t - bytes l0))
                sizeof_params_t l0 m eq_refl) as (p & Hp & Hm).
    pose proof (write_loop_bytes (Z.to_nat (sizeof_params_t - bytes l0))
                  sizeof_params_t l0 m eq_refl) as Hb.
    exists p. split; [exact Hp|]. split; [intros Hc; contradiction|].
    unfold bind at 1.
    destruct (write_loop sizeof_params_t l0 m) as [l1 m1].
    cbn [fst snd] in Hm, Hb. subst m1. run_monad.
    rewrite Hb. subst l0. cbn [bytes]. f_equal. lia.
  - exists (params (statics m)). split; [reflexivity|].
    split; [reflexivity|].
    cbn. rewrite app_nil_r. destruct m as [[] ? ? ?]. reflexivity.
Qed.

(** What each entry point leaves alone. *)
Lemma enter_frame (e : entry) (m : machine) :
  (is_exact_write e = false ->
   params (statics (snd (enter e m))) = params (statics m)) /\
  (is_init e = false ->
   wy_module_major_num (statics (snd (enter e m)))
     = wy_module_major_num (statics m) /\
   wy_module_class (statics (snd (enter e m)))
     = wy_module_class (statics m) /\
   wy_module_device (statics (snd (enter e m)))
     = wy_module_device (statics m)) /\
  (forall a : Z, read_covers e a = false ->
   user (snd (enter e m)) a = user m a).
Proof.
  destruct e as [| |buf len|buf len| |]; cbn [enter is_exact_write is_init
                                               read_covers].
  - destruct (open_cases m) as [[_ ->]|[_ ->]]; cbn; auto.
  - destruct (release_cases m) as (c & -> & _). cbn. auto.
  - destruct (write_effect m buf len) as (p & _ & Hp & ->). cbn.
    split; [|auto].
    intros Hne. apply Z.eqb_neq in Hne. apply Hp, Hne.
  - destruct (read_frame m buf len) as (Hs & _ & _). rewrite Hs.
    split; [auto|]. split; [auto|].
    intros a Ha.
    destruct (Z.eqb_spec len sizeof_params_t) as [->|Hne].
    + destruct (read_exact_length m buf) as (_ & _ & _ & _ & _ & Hout).
      apply Hout. cbn [andb] in Ha.
      destruct (Z.leb_spec buf a), (Z.ltb_spec a (buf + sizeof_params_t));
        cbn in Ha; try discriminate; lia.
    + rewrite read_wrong_length by exact Hne. reflexivity.
  - destruct (init_statics m) as (major & cls & dev & Hs).
    destruct (init_calls m) as (new & _ & _ & Hu & _).
    rewrite Hs, Hu. cbn.
    split; [auto|]. split; [intros; discriminate|auto].
  - unfold bind, ret. rewrite exit_result. cbn. auto.
Qed.

(** The calls an entry point adds never take more module references than
    it adds holders. *)
Lemma enter_refs (e : entry) (m : machine) :
  holder_count m = 0 \/ holder_count m = 1 ->
  module_refs (klog (snd (enter e m))) - holder_count (snd (enter e m))
    <= module_refs (klog m) - holder_count m.
Proof.
  intros Hc. destruct e as [| |buf len|buf len| |]; cbn [enter].
  - destruct (open_cases m) as [[Hf ->]|[_ ->]]; cbn [snd klog]; [|lia].
    rewrite module_refs_app. generalize (module_refs (klog m)). intros r.
    unfold module_refs, holder_count in *. cbn. lia.
  - destruct (release_cases m) as (c & -> & H0 & H1). cbn [snd klog].
    rewrite module_refs_app. generalize (module_refs (klog m)). intros r.
    unfold module_refs, holder_count in *. cbn.
    destruct Hc as [Hc|Hc]; [rewrite (H0 Hc)|rewrite (H1 Hc)]; lia.
  - destruct (write_effect m buf len) as (p & _ & _ & ->). cbn [snd klog].
    rewrite module_refs_app. generalize (module_refs (klog m)). intros r.
    unfold module_refs, holder_count.
    destruct (len =? sizeof_params_t); cbn; lia.
  - destruct (read_frame m buf len) as (Hs & _ & Hg).
    unfold holder_count. rewrite Hs, Hg. lia.
  - destruct (init_statics m) as (major & cls & dev & Hs).
    destruct (init_calls m) as (new & Hg & Hr & _).
    unfold holder_count. rewrite Hs, Hg, module_refs_app, Hr. cbn. lia.
  - unfold bind, ret. rewrite exit_result. cbn [snd fst klog].
    rewrite module_refs_app. generalize (module_refs (klog m)). intros r.
    unfold module_refs, holder_count, exit_calls. cbn. lia.
Qed.

Lemma run_refs (es : list entry) :
  forall m : machine,
    (holder_count m = 0 \/ holder_count m = 1) /\ well_formed m ->
    module_refs (klog (run es m)) - holder_count (run es m)
      <= module_refs (klog m) - holder_count m.
Proof.
  induction es as [|e es IH]; intros m Hm; cbn [run]; [lia|].
  pose proof (enter_refs e m (proj1 Hm)).
  pose proof (IH _ (enter_invariant e m Hm)). lia.
Qed.

Lemma run_keeps_params (es : list entry) :
  forall m : machine,
    forallb (fun e => negb (is_exact_write e)) es = true ->
    params (statics (run es m)) = params (statics m).
Proof.
  induction es as [|e es IH]; intros m Hes; cbn [run]; [reflexivity|].
  cbn [forallb] in Hes. apply andb_prop in Hes as [He Hes].
  rewrite IH by exact Hes.
  apply enter_frame. destruct (is_exact_write e); [discriminate|reflexivity].
Qed.
End Wider.

Section Extras.
Context `{Platform}.


(** X2. Successful initialisation. When all three steps succeed,
    [wy_module_init] returns 0, leaves the major number, the class and the
    device the kernel returned in the statics (the device is created under
    that class and that major with minor 0), makes no releasing call, and
    holds exactly one major number, one class and one device. *)
Theorem init_success (m : machine)
    (Hreg : 0 <= ans_register_chrdev (kernel m))
    (Hcls : IS_ERR (ans_class_create (kernel m)) = false)
    (Hdev : IS_ERR (ans_device_create (kernel m)) = false) :
  fst (wy_module_init m) = 0 /\
  wy_module_major_num (statics (snd (wy_module_init m)))
    = ans_register_chrdev (kernel m) /\
  wy_module_class (statics (snd (wy_module_init m)))
    = ans_class_create (kernel m) /\
  wy_module_device (statics (snd (wy_module_init m)))
    = ans_device_create (kernel m) /\
  calls_since m (snd (wy_module_init m)) =
    init_calls_ok (ans_register_chrdev (kernel m))
      (ans_class_create (kernel m)) (ans_device_create (kernel m)) /\
  majors_held (calls_since m (snd (wy_module_init m))) = 1 /\
  classes_held (calls_since m (snd (wy_module_init m))) = 1 /\
  devices_held (calls_since m (snd (wy_module_init m))) = 1.
Proof.
  rewrite (init_ok m Hreg Hcls Hdev). cbn [fst snd statics].
  rewrite (calls_since_app m _ (init_calls_ok _ _ _)) by reflexivity.
  refine (conj eq_refl (conj eq_refl (conj eq_refl (conj eq_refl
            (conj eq_refl _))))).
  unfold majors_held, classes_held, devices_held, init_calls_ok.
  cbn. rewrite Hcls, Hdev. cbn.
  destruct (Z.leb_spec 0 (ans_register_chrdev (kernel m))); [|lia].
  auto.
Qed.

(** X3. Initialisation is all or nothing. Whatever the kernel answers,
    after [wy_module_init] either every step succeeded, the result is 0 and
    one major number, one class and one device are held, or some step
    failed and none of the three is held. *)
Theorem init_all_or_nothing (m : machine) :
  (0 <= ans_register_chrdev (kernel m) /\
   IS_ERR (ans_class_create (kernel m)) = false /\
   IS_ERR (ans_device_create (kernel m)) = false /\
   fst (wy_module_init m) = 0 /\
   majors_held (calls_since m (snd (wy_module_init m))) = 1 /\
   classes_held (calls_since m (snd (wy_module_init m))) = 1 /\
   devices_held (calls_since m (snd (wy_module_init m))) = 1)
  \/
  ((ans_register_chrdev (kernel m) < 0 \/
    IS_ERR (ans_class_create (kernel m)) = true \/
    IS_ERR (ans_device_create (kernel m)) = true) /\
   majors_held (calls_since m (snd (wy_module_init m))) = 0 /\
   classes_held (calls_since m (snd (wy_module_init m))) = 0 /\
   devices_held (calls_since m (snd (wy_module_init m))) = 0).
Proof.
  destruct (init_paths m) as [Hr|[[Hr Hc]|[(Hr & Hc & Hd)|(Hr & Hc & Hd)]]].
  - right. split; [auto|].
    rewrite (init_register_failed m Hr). cbn [snd].
    rewrite (calls_since_app m _ (init_calls_register_failed _))
      by reflexivity.
    unfold majors_held, classes_held, devices_held,
      init_calls_register_failed.
    cbn. destruct (Z.leb_spec 0 (ans_register_chrdev (kernel m))); [lia|].
    auto.
  - right. split; [auto|].
    rewrite (init_class_failed m Hr Hc). cbn [snd].
    rewrite (calls_since_app m _ (init_calls_class_failed _ _))
      by reflexivity.
    unfold majors_held, classes_held, devices_held, init_calls_class_failed.
    cbn. rewrite Hc. cbn.
    destruct (Z.leb_spec 0 (ans_register_chrdev (kernel m))); [|lia].
    auto.
  - right. split; [auto|].
    rewrite (init_device_failed m Hr Hc Hd). cbn [snd].
    rewrite (calls_since_app m _ (init_calls_device_failed _ _ _))
      by reflexivity.
    unfold majors_held, classes_held, devices_held,
      init_calls_device_failed.
    cbn. rewrite Hc, Hd. cbn.
    destruct (Z.leb_spec 0 (ans_register_chrdev (kernel m))); [|lia].
    auto.
  - left. refine (conj Hr (conj Hc (conj Hd _))).
    rewrite (init_ok m Hr Hc Hd). cbn [fst snd].
    rewrite (calls_since_app m _ (init_calls_ok _ _ _)) by reflexivity.
    unfold majors_held, classes_held, devices_held, init_calls_ok.
    cbn. rewrite Hc, Hd. cbn.
    destruct (Z.leb_spec 0 (ans_register_chrdev (kernel m))); [|lia].
    auto.
Qed.

(** X4. Unloading gives back what loading obtained. After a successful
    [wy_module_init], [wy_module_exit] passes to [device_destroy] the class
    and the device number the device was created with, and to
    [unregister_chrdev] the major number that was registered; over the two
    calls together the major number and the device are each obtained once
    and released once. [wy_module_exit] leaves the statics as
    [wy_module_init] set them. *)
Theorem load_then_unload_returns_handles (m : machine)
    (Hreg : 0 <= ans_register_chrdev (kernel m))
    (Hcls : IS_ERR (ans_class_create (kernel m)) = false)
    (Hdev : IS_ERR (ans_device_create (kernel m)) = false) :
  calls_since m (snd (wy_module_exit (snd (wy_module_init m)))) =
    init_calls_ok (ans_register_chrdev (kernel m))
      (ans_class_create (kernel m)) (ans_device_create (kernel m))
    ++ exit_calls (ans_register_chrdev (kernel m))
         (ans_class_create (kernel m)) /\
  majors_held (calls_since m (snd (wy_module_exit (snd (wy_module_init m)))))
    = 0 /\
  devices_held (calls_since m (snd (wy_module_exit (snd (wy_module_init m)))))
    = 0 /\
  statics (snd (wy_module_exit (snd (wy_module_init m))))
    = statics (snd (wy_module_init m)).
Proof.
  rewrite (init_ok m Hreg Hcls Hdev). cbn [snd].
  rewrite exit_result. cbn [snd statics klog wy_module_major_num
                             wy_module_class set_device set_class
                             set_major_num].
  rewrite (calls_since_app m _ (init_calls_ok _ _ _ ++ exit_calls _ _))
    by (cbn [klog]; rewrite <- app_assoc; reflexivity).
  refine (conj eq_refl (conj _ (conj _ eq_refl))).
  - unfold majors_held. rewrite !tally_app.
    unfold init_calls_ok, exit_calls. cbn.
    destruct (Z.leb_spec 0 (ans_register_chrdev (kernel m))); lia.
  - unfold devices_held. rewrite !tally_app.
    unfold init_calls_ok, exit_calls. cbn. rewrite Hdev. reflexivity.
Qed.

(** X5. The stored record changes only through a write of the exact
    length: every other entry point (open, release, read of any length,
    write of any other length, initialisation, exit) leaves the bytes of
    [params] as they were, in every state. *)
Theorem record_changes_only_on_exact_write (e : entry) (m : machine)
    (He : is_exact_write e = false) :
  params (statics (snd (enter e m))) = params (statics m).
Proof. apply enter_frame, He. Qed.

(** X6. [wy_module_major_num], [wy_module_class] and [wy_module_device]
    change only through [wy_module_init]: open, release, read, write and
    exit leave all three as they were, in every state. *)
Theorem handles_change_only_on_init (e : entry) (m : machine)
    (He : is_init e = false) :
  wy_module_major_num (statics (snd (enter e m)))
    = wy_module_major_num (statics m) /\
  wy_module_class (statics (snd (enter e m)))
    = wy_module_class (statics m) /\
  wy_module_device (statics (snd (enter e m)))
    = wy_module_device (statics m).
Proof. apply enter_frame, He. Qed.

(** X7. User memory is written only by a read of the exact length, and only
    inside its buffer: for every entry point and every address that is not
    within the [sizeof(params_t)] bytes at the buffer of such a read, the
    byte at that address is unchanged. *)
Theorem user_memory_written_only_by_exact_read (e : entry) (m : machine)
    (a : Z) (Ha : read_covers e a = false) :
  user (snd (enter e m)) a = user m a.
Proof. apply enter_frame, Ha. Qed.

(** X8. The last write wins. From a state whose record has its size, two
    writes of the exact length in a row both return that length, and the
    stored record is then the bytes of the second buffer; nothing of the
    first write remains. *)
Theorem last_write_wins (m : machine) (first second : Z)
    (Hwf : well_formed m) :
  fst (wy_module_write first sizeof_params_t m) = sizeof_params_t /\
  fst (wy_module_write second sizeof_params_t
         (snd (wy_module_write first sizeof_params_t m))) = sizeof_params_t
  /\
  params (statics (snd (wy_module_write second sizeof_params_t
                          (snd (wy_module_write first sizeof_params_t m)))))
  = user_bytes m second sizeof_params_t.
Proof.
  rewrite (write_exact_length m first Hwf). cbn [fst snd].
  rewrite write_exact_length.
  - cbn. auto.
  - unfold well_formed, user_bytes. cbn. apply bytes_at_length.
Qed.

(** X9. The result of [wy_module_open] tells whether the endpoint was free:
    on a target whose [EBUSY] is not 0, it returns 0 exactly when
    HolderCount was 0, and otherwise [-EBUSY]. *)
Theorem open_result_tells_gate (m : machine) (HE : EBUSY <> 0) :
  (fst (wy_module_open m) = 0 <-> holder_count m = 0) /\
  (fst (wy_module_open m) = - EBUSY <-> holder_count m <> 0).
Proof.
  destruct (open_cases m) as [[Hc ->]|[Hc ->]]; cbn [fst].
  - split; split; intros; try reflexivity; try assumption; lia.
  - split; split; intros; try reflexivity; try assumption; lia.
Qed.

(** X10. Open then release is a round trip. From a state with HolderCount
    0, [wy_module_open] followed by [wy_module_release] both return 0,
    bring every static back to its value, and make exactly the calls
    [try_module_get] and [module_put]. *)
Theorem open_release_round_trip (m : machine)
    (Hfree : holder_count m = 0) :
  fst (wy_module_open m) = 0 /\
  fst (wy_module_release (snd (wy_module_open m))) = 0 /\
  statics (snd (wy_module_release (snd (wy_module_open m)))) = statics m /\
  user (snd (wy_module_release (snd (wy_module_open m)))) = user m /\
  calls_since m (snd (wy_module_release (snd (wy_module_open m))))
    = [Ktry_module_get; Kmodule_put].
Proof.
  rewrite (open_free m Hfree). cbn [fst snd].
  rewrite release_held by (unfold holder_count; cbn; lia).
  cbn [fst snd statics user].
  refine (conj eq_refl (conj eq_refl (conj _ (conj eq_refl _)))).
  - unfold holder_count in *. destruct m as [[] ? ? ?]. cbn in *.
    subst. reflexivity.
  - apply calls_since_app. cbn [klog]. rewrite <- app_assoc. reflexivity.
Qed.

(** X11. Module references never exceed holders. After any sequence of
    entry points from the initial state, the number of [try_module_get]
    calls less the number of [module_put] calls is at most HolderCount. (It
    can be less: [wy_module_release] calls [module_put] also when
    HolderCount is 0.) *)
Theorem module_refs_never_exceed_holders (u : Z -> byte) (k : answers)
    (es : list entry) :
  module_refs (klog (run es (initial u k)))
    <= holder_count (run es (initial u k)).
Proof.
  pose proof (run_refs es (initial u k) (initial_invariant u k)) as Hrun.
  unfold holder_count in *. cbn in Hrun.
  change (module_refs []) with 0 in Hrun. lia.
Qed.

(** X12. A transfer is whole or not at all. In every state and for every
    length, [wy_module_write] and [wy_module_read] return
    [sizeof(params_t)] when [len] is [sizeof(params_t)] and 0 otherwise:
    never a partial count, never an error code. *)
Theorem transfers_are_all_or_nothing (m : machine) (buf len : Z) :
  fst (wy_module_write buf len m)
    = (if len =? sizeof_params_t then sizeof_params_t else 0) /\
  fst (wy_module_read buf len m)
    = (if len =? sizeof_params_t then sizeof_params_t else 0).
Proof.
  split.
  - destruct (write_effect m buf len) as (p & _ & _ & ->). reflexivity.
  - destruct (Z.eqb_spec len sizeof_params_t) as [->|Hne].
    + apply read_exact_length.
    + rewrite read_wrong_length by exact Hne. reflexivity.
Qed.

(** X13. An unwritten record reads as zeros. After any sequence of entry
    points from the initial state that contains no write of the exact
    length, the stored record is still [sizeof(params_t)] zero bytes, and a
    read of the exact length delivers those zero bytes. *)
Theorem unwritten_record_reads_zero (u : Z -> byte) (k : answers)
    (es : list entry) (buf : Z)
    (Hes : forallb (fun e => negb (is_exact_write e)) es = true) :
  params (statics (run es (initial u k)))
    = replicate (Z.to_nat sizeof_params_t) x00 /\
  fst (wy_module_read buf sizeof_params_t (run es (initial u k)))
    = sizeof_params_t /\
  user_bytes
    (snd (wy_module_read buf sizeof_params_t (run es (initial u k))))
    buf sizeof_params_t
  = replicate (Z.to_nat sizeof_params_t) x00.
Proof.
  pose proof (run_keeps_params es (initial u k) Hes) as Hp.
  destruct (run_invariant es (initial u k) (initial_invariant u k))
    as [_ Hwf].
  destruct (read_exact_length (run es (initial u k)) buf)
    as (Hr & _ & _ & _ & Hb & _).
  refine (conj Hp (conj Hr _)).
  rewrite (Hb Hwf). exact Hp.
Qed.
End Extras.


Lemma init_success_witness :
  0 <= ans_register_chrdev (kernel demo_machine) /\
  @IS_ERR linux_x86_64 (ans_class_create (kernel demo_machine)) = false /\
  @IS_ERR linux_x86_64 (ans_device_create (kernel demo_machine)) = false /\
  fst (@wy_module_init linux_x86_64 demo_machine) = 0 /\
  wy_module_major_num (statics (snd (@wy_module_init linux_x86_64
                                       demo_machine))) = 240.
Proof.
  assert (Hreg : 0 <= ans_register_chrdev (kernel demo_machine))
    by (cbn; lia).
  split; [exact Hreg|]. split; [reflexivity|]. split; [reflexivity|].
  destruct (@init_success linux_x86_64 demo_machine Hreg eq_refl eq_refl)
    as (Hret & Hmaj & _).
  split; [exact Hret | exact Hmaj].
Defined.

Lemma load_then_unload_returns_handles_witness :
  0 <= ans_register_chrdev (kernel demo_machine) /\
  @IS_ERR linux_x86_64 (ans_class_create (kernel demo_machine)) = false /\
  @IS_ERR linux_x86_64 (ans_device_create (kernel demo_machine)) = false /\
  majors_held
    (calls_since demo_machine
       (snd (@wy_module_exit linux_x86_64
               (snd (@wy_module_init linux_x86_64 demo_machine))))) = 0 /\
  @devices_held linux_x86_64
    (calls_since demo_machine
       (snd (@wy_module_exit linux_x86_64
               (snd (@wy_module_init linux_x86_64 demo_machine))))) = 0.
Proof.
  assert (Hreg : 0 <= ans_register_chrdev (kernel demo_machine))
    by (cbn; lia).
  split; [exact Hreg|]. split; [reflexivity|]. split; [reflexivity|].
  destruct (@load_then_unload_returns_handles linux_x86_64 demo_machine
              Hreg eq_refl eq_refl) as (_ & Hmaj & Hdev & _).
  split; [exact Hmaj | exact Hdev].
Defined.

Lemma record_changes_only_on_exact_write_witness :
  @is_exact_write linux_x86_64 (Ewrite 4096 11) = false /\
  params (statics (snd (@enter linux_x86_64 (Ewrite 4096 11) demo_machine)))
    = params (statics demo_machine).
Proof.
  split; [reflexivity|].
  apply (@record_changes_only_on_exact_write linux_x86_64 (Ewrite 4096 11)
           demo_machine eq_refl).
Defined.

Lemma handles_change_only_on_init_witness :
  is_init Eexit = false /\
  wy_module_class (statics (snd (@enter linux_x86_64 Eexit demo_machine)))
    = wy_module_class (statics demo_machine).
Proof.
  split; [reflexivity|].
  destruct (@handles_change_only_on_init linux_x86_64 Eexit demo_machine
              eq_refl) as (_ & Hcls & _).
  exact Hcls.
Defined.

Lemma user_memory_written_only_by_exact_read_witness :
  @read_covers linux_x86_64 (Eread 4096 24) 4120 = false /\
  user (snd (@enter linux_x86_64 (Eread 4096 24) demo_machine)) 4120
    = user demo_machine 4120.
Proof.
  split; [reflexivity|].
  apply (@user_memory_written_only_by_exact_read linux_x86_64
           (Eread 4096 24) demo_machine 4120 eq_refl).
Defined.

Lemma last_write_wins_witness :
  @well_formed linux_x86_64 demo_machine /\
  params (statics (snd (@wy_module_write linux_x86_64 4096
                          (@sizeof_params_t linux_x86_64)
                          (snd (@wy_module_write linux_x86_64 0
                                  (@sizeof_params_t linux_x86_64)
                                  demo_machine)))))
  = user_bytes demo_machine 4096 (@sizeof_params_t linux_x86_64).
Proof.
  assert (Hwf : @well_formed linux_x86_64 demo_machine) by reflexivity.
  split; [exact Hwf|].
  destruct (@last_write_wins linux_x86_64 demo_machine 0 4096 Hwf)
    as (_ & _ & Hlast).
  exact Hlast.
Defined.

Lemma open_result_tells_gate_witness :
  @EBUSY linux_x86_64 <> 0 /\
  (fst (@wy_module_open linux_x86_64 demo_machine_held) = - 16
   <-> holder_count demo_machine_held <> 0).
Proof.
  assert (HE : @EBUSY linux_x86_64 <> 0) by (cbn; lia).
  split; [exact HE|].
  destruct (@open_result_tells_gate linux_x86_64 demo_machine_held HE)
    as (_ & Hbusy).
  exact Hbusy.
Defined.

Lemma open_release_round_trip_witness :
  holder_count demo_machine = 0 /\
  statics (snd (wy_module_release
                  (snd (@wy_module_open linux_x86_64 demo_machine))))
    = statics demo_machine.
Proof.
  split; [reflexivity|].
  destruct (@open_release_round_trip linux_x86_64 demo_machine eq_refl)
    as (_ & _ & Hs & _).
  exact Hs.
Defined.

Lemma unwritten_record_reads_zero_witness :
  forallb (fun e => negb (@is_exact_write linux_x86_64 e))
    [Einit; Eopen; Ewrite 4096 11; Eread 4096 24; Erelease] = true /\
  user_bytes
    (snd (@wy_module_read linux_x86_64 8192 (@sizeof_params_t linux_x86_64)
            (@run linux_x86_64
               [Einit; Eopen; Ewrite 4096 11; Eread 4096 24; Erelease]
               (@initial linux_x86_64 user_ramp kernel_ok))))
    8192 (@sizeof_params_t linux_x86_64)
  = replicate (Z.to_nat (@sizeof_params_t linux_x86_64)) x00.
Proof.
  split; [reflexivity|].
  destruct (@unwritten_record_reads_zero linux_x86_64 user_ramp kernel_ok
              [Einit; Eopen; Ewrite 4096 11; Eread 4096 24; Erelease]
              8192 eq_refl) as (_ & _ & Hzero).
  exact Hzero.
Defined.

Section Gateless.
Context `{Platform}.

Lemma write_loop_with_count (n : nat) :
  forall (len : Z) (l : locals) (m : machine) (c : Z),
    Z.to_nat (len - bytes l) = n ->
    write_loop len l (with_count c m) =
      (fst (write_loop len l m), with_count c (snd (write_loop len l m))).
Proof.
  induction n as [|k IH]; intros len l m c Hn.
  - rewrite (write_loop_step len l (with_count c m)),
            (write_loop_step len l m).
    destruct (Z.ltb_spec (bytes l) len); [lia|]. reflexivity.
  - rewrite (write_loop_step len l (with_count c m)),
            (write_loop_step len l m).
    destruct (Z.ltb_spec (bytes l) len); [|lia].
    change (snd (write_body l (with_count c m)))
      with (with_count c (snd (write_body l m))).
    change (fst (write_body l (with_count c m)))
      with (fst (write_body l m)).
    apply IH. cbn. lia.
Qed.

Lemma read_loop_with_count (n : nat) :
  forall (len : Z) (l : locals) (m : machine) (c : Z),
    Z.to_nat (len - bytes l) = n ->
    read_loop len l (with_count c m) =
      (fst (read_loop len l m), with_count c (snd (read_loop len l m))).
Proof.
  induction n as [|k IH]; intros len l m c Hn.
  - rewrite (read_loop_step len l (with_count c m)),
            (read_loop_step len l m).
    destruct (Z.ltb_spec (bytes l) len); [lia|]. reflexivity.
  - rewrite (read_loop_step len l (with_count c m)),
            (read_loop_step len l m).
    destruct (Z.ltb_spec (bytes l) len); [|lia].
    change (snd (read_body l (with_count c m)))
      with (with_count c (snd (read_body l m))).
    change (fst (read_body l (with_count c m)))
      with (fst (read_body l m)).
    apply IH. cbn. lia.
Qed.

(** X14. The transfer functions do not consult the gate. Whatever value
    [wy_module_open_count] has, held or not, [wy_module_write] and
    [wy_module_read] return the same result and have the same effect on
    everything else, and leave that value as it is. *)
Theorem transfers_ignore_the_gate (m : machine) (buf len c : Z) :
  wy_module_write buf len (with_count c m) =
    (fst (wy_module_write buf len m),
     with_count c (snd (wy_module_write buf len m))) /\
  wy_module_read buf len (with_count c m) =
    (fst (wy_module_read buf len m),
     with_count c (snd (wy_module_read buf len m))).
Proof.
  split.
  - unfold wy_module_write.
    destruct (Z.eqb_spec len sizeof_params_t) as [->|Hne]; cbn [negb];
      [|reflexivity].
    unfold bind, ret, read_statics, printk, kcalled.
    rewrite (write_loop_with_count _ _ _ m c eq_refl).
    destruct (write_loop sizeof_params_t _ m) as [l1 m1].
    reflexivity.
  - unfold wy_module_read.
    destruct (Z.eqb_spec len sizeof_params_t) as [->|Hne]; cbn [negb];
      [|reflexivity].
    unfold bind.
    rewrite (read_loop_with_count _ _ _ m c eq_refl).
    destruct (read_loop sizeof_params_t _ m) as [l1 m1].
    reflexivity.
Qed.
End Gateless.
